(** * Webhook registry of shopify-api-js: registration and inbound processing

    A shallow embedding of [webhooks/registry.ts] (the [WebhooksRegistry]
    object with [buildCheckQuery], [buildQuery], [isSuccess] and
    [validateDeliveryMethod]) and the properties its specification states.

    Conventions of the embedding:
    - a JavaScript string is a [string] of ASCII characters;
    - an [async] function is a computation over an explicit world that holds
      the remote side and the list of documents sent to it; a rejected
      promise and a thrown exception are both the error result [Err];
    - [request]/[response] objects are records; the mutation of [response]
      is state passing. *)

From Stdlib Require Import String Ascii List ZArith Lia Bool.
From stdpp Require Import base option list strings gmap.

Local Open Scope string_scope.
Local Open Scope list_scope.
Set Warnings "-register-all".

(** ** JavaScript primitives used by the registry *)

Module JS.

Definition is_upper (c : ascii) : bool :=
  let n := nat_of_ascii c in Nat.leb 65 n && Nat.leb n 90.

Definition is_lower (c : ascii) : bool :=
  let n := nat_of_ascii c in Nat.leb 97 n && Nat.leb n 122.

Definition lower_char (c : ascii) : ascii :=
  if is_upper c then ascii_of_nat (nat_of_ascii c + 32) else c.

Definition upper_char (c : ascii) : ascii :=
  if is_lower c then ascii_of_nat (nat_of_ascii c - 32) else c.

Fixpoint map_chars (f : ascii -> ascii) (s : string) : string :=
  match s with
  | EmptyString => EmptyString
  | String c r => String (f c) (map_chars f r)
  end.

(** [s.toLowerCase()] and [s.toUpperCase()] on ASCII strings: the 26 letters
    change, nothing else does. On a string with a character outside ASCII
    the JavaScript functions also change letters these leave alone; a
    property that depends on which characters change is stated for strings
    that are [isAscii]. *)
Definition toLowerCase : string -> string := map_chars lower_char.
Definition toUpperCase : string -> string := map_chars upper_char.

(** Every character of the string is an ASCII character. *)
Fixpoint isAscii (s : string) : bool :=
  match s with
  | EmptyString => true
  | String c r => Nat.ltb (nat_of_ascii c) 128 && isAscii r
  end.

(** [s.replace(/a/g, 'b')] for a one-character pattern [a]. *)
Definition replaceAll (a b : ascii) : string -> string :=
  map_chars (fun c => if Ascii.eqb c a then b else c).

(** [s.replace(/^p/, '')] for a literal [p]. *)
Fixpoint stripPrefix (p s : string) : option string :=
  match p, s with
  | EmptyString, _ => Some s
  | String a p', String b s' => if Ascii.eqb a b then stripPrefix p' s' else None
  | String _ _, EmptyString => None
  end.

Definition replacePrefix (p s : string) : string :=
  match stripPrefix p s with Some r => r | None => s end.

(** [s.split(sep)] for a one-character separator: never the empty array. *)
Fixpoint split (sep : ascii) (s : string) : list string :=
  match s with
  | EmptyString => [EmptyString]
  | String c r =>
      if Ascii.eqb c sep then EmptyString :: split sep r
      else match split sep r with
           | h :: t => String c h :: t
           | [] => [String c EmptyString]
           end
  end.

(** [s.includes(c)] for a character [c]. *)
Fixpoint occurs (c : ascii) (s : string) : bool :=
  match s with
  | EmptyString => false
  | String a r => Ascii.eqb a c || occurs c r
  end.

(** [l.join(sep)]. *)
Definition join (sep : string) (l : list string) : string := String.concat sep l.

(** [`${x}`] of a possibly undefined string. *)
Definition interpolate (x : option string) : string :=
  match x with Some s => s | None => "undefined" end.

(** The values a response body can hold. *)
Inductive Value : Type :=
| VUndefined
| VNull
| VBool (b : bool)
| VNum (n : Z)
| VStr (s : string)
| VArr (items : list Value)
| VObj (fields : list (string * Value)).

(** [Boolean(v)]. *)
Definition truthy (v : Value) : bool :=
  match v with
  | VUndefined | VNull => false
  | VBool b => b
  | VNum n => negb (Z.eqb n 0)
  | VStr s => negb (String.eqb s EmptyString)
  | VArr _ | VObj _ => true
  end.

(** [Boolean(s)] of a possibly undefined string: [!s] is its negation. *)
Definition truthyStr (s : option string) : bool :=
  match s with
  | Some s => negb (String.eqb s EmptyString)
  | None => false
  end.

Fixpoint lookupLast (k : string) (fs : list (string * Value)) (acc : Value) : Value :=
  match fs with
  | [] => acc
  | (k', v) :: r => lookupLast k r (if String.eqb k k' then v else acc)
  end.

(** [v[k]] for an own data property [k]: [None] is the TypeError of reading a
    property of [undefined] or [null]; a parsed object with a repeated key
    keeps the last one. *)
Definition prop (k : string) (v : Value) : option Value :=
  match v with
  | VUndefined | VNull => None
  | VObj fs => Some (lookupLast k fs VUndefined)
  | _ => Some VUndefined
  end.

(** [a && b]. *)
Definition and_then (a : Value) (b : option Value) : option Value :=
  if truthy a then b else Some a.

Definition asString (v : Value) : option string :=
  match v with VStr s => Some s | _ => None end.

End JS.

Definition dquote : string := String (ascii_of_nat 34) EmptyString.
Definition nl : string := String (ascii_of_nat 10) EmptyString.

(** ** Errors, configuration and the data model *)

(** What the registry throws, or what a collaborator rejects with. *)
Inductive Thrown : Type :=
| InvalidWebhookError (message : string)
| UnsupportedClientType (message : string)
| TypeError
| Rejection (reason : JS.Value).

(** [if (responseError)]: an error object is truthy, a rejection reason is
    whatever value the handler rejected with. *)
Definition truthyThrown (e : Thrown) : bool :=
  match e with
  | Rejection v => JS.truthy v
  | _ => true
  end.

Inductive Result (A : Type) : Type :=
| Ok (a : A)
| Err (e : Thrown).
Arguments Ok {A} a.
Arguments Err {A} e.

Inductive DeliveryMethod : Type := Http | EventBridge | PubSub.

#[global] Instance DeliveryMethod_eq_dec : EqDecision DeliveryMethod.
Proof. solve_decision. Defined.

(** [Context]: the fields the registry reads. An API version is a string
    such as 2021-07, or unstable. *)
Record Context : Type := {
  API_SECRET_KEY : string;
  API_VERSION : string;
  HOST_NAME : string
}.

Module ApiVersion.
Definition July21 : string := "2021-07".
End ApiVersion.

(** Modelled from the spec: [ShopifyUtilities.versionCompatible], whose file
    is not part of the sources at hand. The configured version is compatible
    with a reference version when it is at or after it; on the year-month
    form of a version this is the order of the strings. *)
Definition versionCompatible (referenceVersion currentVersion : string) : bool :=
  String.leb referenceVersion currentVersion.

Definition versionSupportsPubSub (ctx : Context) : bool :=
  versionCompatible ApiVersion.July21 (API_VERSION ctx).

Definition validateDeliveryMethod (ctx : Context) (deliveryMethod : DeliveryMethod)
  : Result unit :=
  if bool_decide (deliveryMethod = PubSub) && negb (versionSupportsPubSub ctx)
  then Err (UnsupportedClientType
              ("Pub/Sub webhooks are not supported in API version " +:+ dquote
               +:+ API_VERSION ctx +:+ dquote +:+ "."))
  else Ok tt.

(** ** The two GraphQL documents *)

Definition pubSubFragment : string :=
  "... on WebhookPubSubEndpoint { "
  +:+ "                    pubSubProject "
  +:+ "                    pubSubTopic "
  +:+ "                  }".

Definition buildCheckQuery (ctx : Context) (topic : string) : string :=
  "{" +:+ nl
  +:+ "    webhookSubscriptions(first: 1, topics: " +:+ topic +:+ ") {" +:+ nl
  +:+ "      edges {" +:+ nl
  +:+ "        node {" +:+ nl
  +:+ "          id" +:+ nl
  +:+ "          endpoint {" +:+ nl
  +:+ "            __typename" +:+ nl
  +:+ "            ... on WebhookHttpEndpoint {" +:+ nl
  +:+ "              callbackUrl" +:+ nl
  +:+ "            }" +:+ nl
  +:+ "            ... on WebhookEventBridgeEndpoint {" +:+ nl
  +:+ "              arn" +:+ nl
  +:+ "            }" +:+ nl
  +:+ "            "
  +:+ (if versionSupportsPubSub ctx then pubSubFragment else EmptyString) +:+ nl
  +:+ "          }" +:+ nl
  +:+ "        }" +:+ nl
  +:+ "      }" +:+ nl
  +:+ "    }" +:+ nl
  +:+ "  }".

(** The last template of [buildQuery]. *)
Definition mutationDocument (mutationName identifier webhookSubscriptionArgs : string)
  : string :=
  nl
  +:+ "    mutation webhookSubscription {" +:+ nl
  +:+ "      " +:+ mutationName +:+ "(" +:+ identifier
  +:+ ", webhookSubscription: " +:+ webhookSubscriptionArgs +:+ ") {" +:+ nl
  +:+ "        userErrors {" +:+ nl
  +:+ "          field" +:+ nl
  +:+ "          message" +:+ nl
  +:+ "        }" +:+ nl
  +:+ "        webhookSubscription {" +:+ nl
  +:+ "          id" +:+ nl
  +:+ "        }" +:+ nl
  +:+ "      }" +:+ nl
  +:+ "    }" +:+ nl
  +:+ "  ".

Definition buildQuery (ctx : Context) (topic address : string)
    (deliveryMethod : option DeliveryMethod) (webhookId : option string)
  : Result string :=
  let deliveryMethod := default Http deliveryMethod in
  match validateDeliveryMethod ctx deliveryMethod with
  | Err e => Err e
  | Ok _ =>
      let identifier :=
        if JS.truthyStr webhookId
        then "id: " +:+ dquote +:+ JS.interpolate webhookId +:+ dquote
        else "topic: " +:+ topic in
      let '(mutationName, webhookSubscriptionArgs) :=
        match deliveryMethod with
        | Http =>
            (if JS.truthyStr webhookId
             then "webhookSubscriptionUpdate"
             else "webhookSubscriptionCreate",
             "{callbackUrl: " +:+ dquote +:+ address +:+ dquote +:+ "}")
        | EventBridge =>
            (if JS.truthyStr webhookId
             then "eventBridgeWebhookSubscriptionUpdate"
             else "eventBridgeWebhookSubscriptionCreate",
             "{arn: " +:+ dquote +:+ address +:+ dquote +:+ "}")
        | PubSub =>
            let parts := JS.split ":" (JS.replacePrefix "pubsub://" address) in
            let pubSubProject := parts !! 0%nat in
            let pubSubTopic := parts !! 1%nat in
            (if JS.truthyStr webhookId
             then "pubSubWebhookSubscriptionUpdate"
             else "pubSubWebhookSubscriptionCreate",
             "{pubSubProject: " +:+ dquote +:+ JS.interpolate pubSubProject
             +:+ dquote +:+ "," +:+ nl
             +:+ "                                  pubSubTopic: " +:+ dquote
             +:+ JS.interpolate pubSubTopic +:+ dquote +:+ "}")
        end in
      Ok (mutationDocument mutationName identifier webhookSubscriptionArgs)
  end.

(** [isSuccess]: [None] is the TypeError of reading [data] off a missing body. *)
Definition isSuccess (result : JS.Value) (deliveryMethod : DeliveryMethod)
    (webhookId : option string) : option bool :=
  let endpoint :=
    match deliveryMethod with
    | Http => "webhookSubscription"
    | EventBridge => "eventBridgeWebhookSubscription"
    | PubSub => "pubSubWebhookSubscription"
    end in
  let endpoint := endpoint +:+ (if JS.truthyStr webhookId then "Update" else "Create") in
  data ← JS.prop "data" result;
  r ← JS.and_then data
        (named ← JS.prop endpoint data;
         JS.and_then named (JS.prop "webhookSubscription" named));
  Some (JS.truthy r).

(** ** The check response, as far as [register] reads it *)

Module WebhookCheck.

(** [node.endpoint]: the type tag and the address fields of the three
    fragments of the check query; a field that is absent is [None]. *)
Record Endpoint : Type := {
  __typename : option string;
  callbackUrl : option string;
  arn : option string;
  pubSubProject : option string;
  pubSubTopic : option string
}.

Record Node : Type := {
  id : option string;
  endpoint : Endpoint
}.

Definition field (k : string) (v : JS.Value) : option (option string) :=
  x ← JS.prop k v; Some (JS.asString x).

(** [edges[0].node], read the way [register] reads it. The outer [None] is a
    TypeError (a property read off [undefined] or [null]). A body outside
    the [WebhookCheckResponse] type the source casts it to (an [edges] that
    is no array, an [id] that is a truthy non-string) is treated the same. *)
Definition readNode (edge : JS.Value) : option Node :=
  node ← JS.prop "node" edge;
  ep ← JS.prop "endpoint" node;
  tn ← field "__typename" ep;
  cb ← field "callbackUrl" ep;
  a ← field "arn" ep;
  pp ← field "pubSubProject" ep;
  pt ← field "pubSubTopic" ep;
  i ← JS.prop "id" node;
  i ← match i with
      | JS.VStr s => Some (Some s)
      | _ => if JS.truthy i then None else Some None
      end;
  Some {| id := i;
          endpoint := {| __typename := tn; callbackUrl := cb; arn := a;
                         pubSubProject := pp; pubSubTopic := pt |} |}.

(** [checkResult.body.data.webhookSubscriptions.edges]: [Some None] when it
    is empty, [Some (Some node)] for its first node. *)
Definition firstNode (body : JS.Value) : option (option Node) :=
  data ← JS.prop "data" body;
  subs ← JS.prop "webhookSubscriptions" data;
  edges ← JS.prop "edges" subs;
  match edges with
  | JS.VArr [] => Some None
  | JS.VArr (edge :: _) => Some <$> readNode edge
  | _ => None
  end.

(** The address [register] decodes from an existing subscription. *)
Definition endpointAddress (ep : Endpoint) : option string :=
  if bool_decide (__typename ep = Some "WebhookHttpEndpoint") then callbackUrl ep
  else if bool_decide (__typename ep = Some "WebhookEventBridgeEndpoint") then arn ep
  else Some EmptyString.

End WebhookCheck.

(** ** The handler table *)

Definition WebhookHandler : Type := string -> string -> string -> Result unit.

Record WebhookRegistryEntry : Type := {
  path : string;
  webhookHandler : WebhookHandler
}.

(** [webhookRegistry]: an object used as a map, as the list of its own keys
    and entries in the order of their first assignment. The list is the
    object for string keys in general, with three exceptions of a plain
    JavaScript object, which the properties below rule out by hypothesis
    where they matter ([Spec.plainKey], [Spec.inherited]):
    - [Object.keys] lists keys that are array indices first, in numeric
      order;
    - an assignment to the key [__proto__] sets the prototype and adds no
      key;
    - a read of a key that is not an own key answers the member of
      [Object.prototype] of that name, if there is one.
    [process] and [registerAll] never meet them: the key [process] reads has
    no lower-case letter, and [registerAll] reads the keys [Object.keys]
    lists. *)
Definition Registry : Type := list (string * WebhookRegistryEntry).

Fixpoint assign (topic : string) (entry : WebhookRegistryEntry) (reg : Registry)
  : Registry :=
  match reg with
  | [] => [(topic, entry)]
  | (k, v) :: r =>
      if String.eqb k topic then (k, entry) :: r else (k, v) :: assign topic entry r
  end.

Definition addHandler (topic : string) (options : WebhookRegistryEntry)
    (webhookRegistry : Registry) : Registry :=
  assign topic {| path := path options; webhookHandler := webhookHandler options |}
         webhookRegistry.

Definition addHandlers (handlers : list (string * WebhookRegistryEntry))
    (webhookRegistry : Registry) : Registry :=
  fold_left (fun reg h => addHandler (fst h) (snd h) reg) handlers webhookRegistry.

Fixpoint getHandler (topic : string) (webhookRegistry : Registry)
  : option WebhookRegistryEntry :=
  match webhookRegistry with
  | [] => None
  | (k, v) :: r => if String.eqb k topic then Some v else getHandler topic r
  end.

Definition getTopics (webhookRegistry : Registry) : list string :=
  map fst webhookRegistry.

Definition isWebhookPath (p : string) (webhookRegistry : Registry) : bool :=
  existsb (fun kv => String.eqb (path (snd kv)) p) webhookRegistry.

(** ** Registration *)

Module RegisterOptions.
Record t : Type := {
  path : string;
  topic : string;
  accessToken : string;
  shop : string;
  deliveryMethod : option DeliveryMethod
}.
End RegisterOptions.

Module ShortenedRegisterOptions.
Record t : Type := {
  accessToken : string;
  shop : string;
  deliveryMethod : option DeliveryMethod
}.
End ShortenedRegisterOptions.

(** One entry of a [RegisterReturn]. *)
Record Outcome : Type := {
  success : bool;
  result : JS.Value
}.

(** One call of [client.query] of a [GraphqlClient(shop, accessToken)]. *)
Record Call : Type := {
  call_shop : string;
  call_accessToken : string;
  call_data : string
}.

(** The remote side and the transport to it are collaborators: a state
    [Remote] and a function [send] that answers a call with a body or a
    rejection. The world adds the calls made so far, oldest first. *)
Record World (Remote : Type) : Type := {
  remote : Remote;
  calls : list Call
}.
Arguments remote {Remote} _.
Arguments calls {Remote} _.

Definition Transport (Remote : Type) : Type :=
  Call -> Remote -> Result JS.Value * Remote.

Definition M (Remote A : Type) : Type := World Remote -> Result A * World Remote.

Definition ret {Remote A} (a : A) : M Remote A := fun w => (Ok a, w).

Definition throw {Remote A} (e : Thrown) : M Remote A := fun w => (Err e, w).

Definition bind {Remote A B} (c : M Remote A) (k : A -> M Remote B) : M Remote B :=
  fun w => match c w with
           | (Ok a, w') => k a w'
           | (Err e, w') => (Err e, w')
           end.

Notation "'let*' x ':=' c 'in' k" := (bind c (fun x => k))
  (at level 10, x pattern, c at level 200, k at level 200).

Definition lift {Remote A} (r : Result A) : M Remote A :=
  match r with Ok a => ret a | Err e => throw e end.

Definition orTypeError {Remote A} (o : option A) : M Remote A :=
  match o with Some a => ret a | None => throw TypeError end.

(** [await client.query({data})]. *)
Definition client_query {Remote} (send : Transport Remote)
    (shop accessToken data : string) : M Remote JS.Value :=
  fun w =>
    let call := {| call_shop := shop; call_accessToken := accessToken;
                   call_data := data |} in
    let '(answer, remote') := send call (remote w) in
    (answer, {| remote := remote'; calls := (calls w ++ [call])%list |}).

Definition register {Remote} (send : Transport Remote) (ctx : Context)
    (options : RegisterOptions.t) : M Remote (gmap string Outcome) :=
  let path := RegisterOptions.path options in
  let topic := RegisterOptions.topic options in
  let accessToken := RegisterOptions.accessToken options in
  let shop := RegisterOptions.shop options in
  let deliveryMethod := default Http (RegisterOptions.deliveryMethod options) in
  let* _ := lift (validateDeliveryMethod ctx deliveryMethod) in
  let address :=
    if bool_decide (deliveryMethod = Http)
    then "https://" +:+ HOST_NAME ctx +:+ path
    else path in
  let* checkResult := client_query send shop accessToken (buildCheckQuery ctx topic) in
  let* first := orTypeError (WebhookCheck.firstNode checkResult) in
  let '(webhookId, mustRegister) :=
    match first with
    | Some node =>
        let endpointAddress := WebhookCheck.endpointAddress (WebhookCheck.endpoint node) in
        (WebhookCheck.id node,
         if bool_decide (endpointAddress = Some address) then false else true)
    | None => (None, true)
    end in
  if mustRegister then
    let* data := lift (buildQuery ctx topic address (Some deliveryMethod) webhookId) in
    let* result := client_query send shop accessToken data in
    let* ok := orTypeError (isSuccess result deliveryMethod webhookId) in
    ret {[ topic := {| success := ok; result := result |} ]}
  else
    ret {[ topic := {| success := true; result := JS.VObj [] |} ]}.

Fixpoint registerAll_loop {Remote} (send : Transport Remote) (ctx : Context)
    (webhookRegistry : Registry) (accessToken shop : string)
    (deliveryMethod : DeliveryMethod) (topics : list string)
    (registerReturn : gmap string Outcome) : M Remote (gmap string Outcome) :=
  match topics with
  | [] => ret registerReturn
  | topic :: rest =>
      match getHandler topic webhookRegistry with
      | Some handler =>
          let webhook :=
            {| RegisterOptions.path := path handler;
               RegisterOptions.topic := topic;
               RegisterOptions.accessToken := accessToken;
               RegisterOptions.shop := shop;
               RegisterOptions.deliveryMethod := Some deliveryMethod |} in
          let* returnedRegister := register send ctx webhook in
          registerAll_loop send ctx webhookRegistry accessToken shop deliveryMethod
            rest (returnedRegister ∪ registerReturn)
      | None =>
          registerAll_loop send ctx webhookRegistry accessToken shop deliveryMethod
            rest registerReturn
      end
  end.

Definition registerAll {Remote} (send : Transport Remote) (ctx : Context)
    (webhookRegistry : Registry) (options : ShortenedRegisterOptions.t)
  : M Remote (gmap string Outcome) :=
  registerAll_loop send ctx webhookRegistry
    (ShortenedRegisterOptions.accessToken options)
    (ShortenedRegisterOptions.shop options)
    (default Http (ShortenedRegisterOptions.deliveryMethod options))
    (getTopics webhookRegistry) ∅.

(** The call [register] makes first, and a later call of the same client. *)
Definition checkCall (ctx : Context) (options : RegisterOptions.t) : Call :=
  {| call_shop := RegisterOptions.shop options;
     call_accessToken := RegisterOptions.accessToken options;
     call_data := buildCheckQuery ctx (RegisterOptions.topic options) |}.

Definition mutationCall (options : RegisterOptions.t) (data : string) : Call :=
  {| call_shop := RegisterOptions.shop options;
     call_accessToken := RegisterOptions.accessToken options;
     call_data := data |}.

(** The options [registerAll] hands to [register] for one topic. *)
Definition webhookOf (accessToken shop : string) (deliveryMethod : DeliveryMethod)
    (topic : string) (handler : WebhookRegistryEntry) : RegisterOptions.t :=
  {| RegisterOptions.path := path handler;
     RegisterOptions.topic := topic;
     RegisterOptions.accessToken := accessToken;
     RegisterOptions.shop := shop;
     RegisterOptions.deliveryMethod := Some deliveryMethod |}.

(** ** Inbound processing *)

(** [StatusCode] of the network package. *)
Module StatusCode.
Definition Ok : Z := 200.
Definition BadRequest : Z := 400.
Definition Forbidden : Z := 403.
Definition InternalServerError : Z := 500.
End StatusCode.

Module Request.
Record t (Headers : Type) : Type := {
  body : option string;
  headers : Headers
}.
Arguments body {Headers} _.
Arguments headers {Headers} _.
End Request.

Module Response.
Record t : Type := {
  statusCode : option Z;
  headers : option (list (string * string))
}.
End Response.

(** What [process] uses and the sources at hand do not define: the HMAC of
    [utils/hmac], [ShopifyUtilities.safeCompare] (on two strings it answers,
    it does not throw), [flatHeaders] of the HTTP adapter, and the three
    header names of [ShopifyHeader]. *)
Record Collaborators (Headers : Type) : Type := {
  createSHA256HMAC : string -> string -> string;
  safeCompare : string -> string -> bool;
  flatHeaders : Headers -> list (string * string);
  Hmac : string;
  Topic : string;
  Domain : string
}.
Arguments createSHA256HMAC {Headers} _.
Arguments safeCompare {Headers} _.
Arguments flatHeaders {Headers} _.
Arguments Hmac {Headers} _.
Arguments Topic {Headers} _.
Arguments Domain {Headers} _.

(** One call of a registered handler: the entry and the three arguments. *)
Record Dispatch : Type := {
  dispatch_entry : WebhookRegistryEntry;
  dispatch_topic : string;
  dispatch_domain : string;
  dispatch_body : string
}.

(** What one run of [process] leaves behind: the response object, the error
    it throws if any, and the handler calls it made. *)
Record Processed : Type := {
  response : Response.t;
  thrown : option Thrown;
  dispatched : list Dispatch
}.

(** The three variables the header loop assigns. *)
Record Extracted : Type := {
  hmac : option string;
  topic : option string;
  domain : option string
}.

(** One iteration of the loop over [flatHeaders(request.headers)]. *)
Definition extractStep {Headers} (env : Collaborators Headers) (acc : Extracted)
    (hv : string * string) : Extracted :=
  let '(header, value) := hv in
  let h := JS.toLowerCase header in
  if String.eqb h (JS.toLowerCase (Hmac env)) then
    {| hmac := Some value; topic := topic acc; domain := domain acc |}
  else if String.eqb h (JS.toLowerCase (Topic env)) then
    {| hmac := hmac acc; topic := Some value; domain := domain acc |}
  else if String.eqb h (JS.toLowerCase (Domain env)) then
    {| hmac := hmac acc; topic := topic acc; domain := Some value |}
  else acc.

Definition extractHeaders {Headers} (env : Collaborators Headers) (hs : Headers)
  : Extracted :=
  fold_left (extractStep env) (flatHeaders env hs)
            {| hmac := None; topic := None; domain := None |}.

(** [missingHeaders] after the three pushes. *)
Definition missingHeaders {Headers} (env : Collaborators Headers) (x : Extracted)
  : list string :=
  let missing : list string := [] in
  let missing := if JS.truthyStr (hmac x) then missing else (missing ++ [Hmac env])%list in
  let missing := if JS.truthyStr (topic x) then missing else (missing ++ [Topic env])%list in
  let missing := if JS.truthyStr (domain x) then missing else (missing ++ [Domain env])%list in
  missing.

(** [topic.toUpperCase().replace(/\//g, '_')]. *)
Definition graphqlTopicOf (topic : string) : string :=
  JS.replaceAll "/" "_" (JS.toUpperCase topic).

Definition setStatus (r : Response.t) (code : Z) : Response.t :=
  {| Response.statusCode := Some code; Response.headers := Response.headers r |}.

Definition process {Headers} (env : Collaborators Headers) (ctx : Context)
    (webhookRegistry : Registry) (request : Request.t Headers)
    (response : Response.t) : Processed :=
  let reqBody := Request.body request in
  if negb (JS.truthyStr reqBody) then
    {| response := setStatus response StatusCode.BadRequest;
       thrown := Some (InvalidWebhookError
                         "No body was received when processing webhook");
       dispatched := [] |}
  else
    let reqBody := default EmptyString reqBody in
    let x := extractHeaders env (Request.headers request) in
    let missing := missingHeaders env x in
    if Nat.ltb 0 (length missing) then
      {| response := setStatus response StatusCode.BadRequest;
         thrown := Some (InvalidWebhookError
           ("Missing one or more of the required HTTP headers to process webhooks: ["
            +:+ JS.join ", " missing +:+ "]"));
         dispatched := [] |}
    else
      let generatedHash := createSHA256HMAC env (API_SECRET_KEY ctx) reqBody in
      let '(statusCode, responseError, calls) :=
        if safeCompare env generatedHash (default EmptyString (hmac x)) then
          let graphqlTopic := graphqlTopicOf (default EmptyString (topic x)) in
          match getHandler graphqlTopic webhookRegistry with
          | Some webhookEntry =>
              let call := {| dispatch_entry := webhookEntry;
                             dispatch_topic := graphqlTopic;
                             dispatch_domain := default EmptyString (domain x);
                             dispatch_body := reqBody |} in
              match webhookHandler webhookEntry graphqlTopic
                      (default EmptyString (domain x)) reqBody with
              | Ok _ => (StatusCode.Ok, None, [call])
              | Err error => (StatusCode.InternalServerError, Some error, [call])
              end
          | None =>
              (StatusCode.Forbidden,
               Some (InvalidWebhookError
                       ("No webhook is registered for topic "
                        +:+ JS.interpolate (topic x))),
               [])
          end
        else
          (StatusCode.Forbidden,
           Some (InvalidWebhookError
                   ("Could not validate request for topic "
                    +:+ JS.interpolate (topic x))),
           []) in
      {| response := {| Response.statusCode := Some statusCode;
                        Response.headers := Some [] |};
         thrown := match responseError with
                   | Some e => if truthyThrown e then Some e else None
                   | None => None
                   end;
         dispatched := calls |}.

(** ** What the specification says, in its own words *)

Module Spec.

(** The method table of the specification: create and update mutation. *)
Definition methodTable : list (DeliveryMethod * (string * string)) :=
  [ (Http, ("webhookSubscriptionCreate", "webhookSubscriptionUpdate"));
    (EventBridge, ("eventBridgeWebhookSubscriptionCreate",
                   "eventBridgeWebhookSubscriptionUpdate"));
    (PubSub, ("pubSubWebhookSubscriptionCreate",
              "pubSubWebhookSubscriptionUpdate")) ].

Definition row (method : DeliveryMethod) : string * string :=
  match list_find (fun r => fst r = method) methodTable with
  | Some (_, r) => snd r
  | None => (EmptyString, EmptyString)
  end.

(** Update exactly when an existing id is supplied, create otherwise. *)
Definition mutationName (method : DeliveryMethod) (idSupplied : bool) : string :=
  if idSupplied then snd (row method) else fst (row method).

(** The address argument in the shape of the method. *)
Definition addressArgs (method : DeliveryMethod) (address : string) : string :=
  match method with
  | Http => "{callbackUrl: " +:+ dquote +:+ address +:+ dquote +:+ "}"
  | EventBridge => "{arn: " +:+ dquote +:+ address +:+ dquote +:+ "}"
  | PubSub =>
      let parts := JS.split ":" (JS.replacePrefix "pubsub://" address) in
      "{pubSubProject: " +:+ dquote +:+ JS.interpolate (parts !! 0%nat)
      +:+ dquote +:+ "," +:+ nl
      +:+ "                                  pubSubTopic: " +:+ dquote
      +:+ JS.interpolate (parts !! 1%nat) +:+ dquote +:+ "}"
  end.

(** The same argument for a project and a topic that are given. *)
Definition pubSubArgs (project pubSubTopic : string) : string :=
  "{pubSubProject: " +:+ dquote +:+ project +:+ dquote +:+ "," +:+ nl
  +:+ "                                  pubSubTopic: " +:+ dquote
  +:+ pubSubTopic +:+ dquote +:+ "}".

(** A subscription is named by its id when there is one, else by its topic. *)
Definition identifier (topic : string) (webhookId : option string) : string :=
  match webhookId with
  | Some i => if String.eqb i EmptyString then "topic: " +:+ topic
              else "id: " +:+ dquote +:+ i +:+ dquote
  | None => "topic: " +:+ topic
  end.

(** The address a registration aims at: the callback URL on the configured
    host for [Http], the given address as it is otherwise. *)
Definition targetAddress (ctx : Context) (options : RegisterOptions.t) : string :=
  match default Http (RegisterOptions.deliveryMethod options) with
  | Http => "https://" +:+ HOST_NAME ctx +:+ RegisterOptions.path options
  | _ => RegisterOptions.path options
  end.

(** The value a request carries for a header name, names compared without
    regard to case, the last occurrence winning. *)
Definition lookupHeader (name : string) (hs : list (string * string)) : option string :=
  snd <$> last (filter (fun hv => JS.toLowerCase (fst hv) = JS.toLowerCase name) hs).

(** A header is missing when the request carries no non-empty value for it. *)
Definition isMissing (name : string) (hs : list (string * string)) : bool :=
  negb (JS.truthyStr (lookupHeader name hs)).

(** The rows of the status table. *)
Inductive Condition : Type :=
| MissingBodyOrHeaders
| SignatureMismatch
| NoHandlerForTopic
| HandlerThrew
| HandlerSucceeded.

Definition statusFor (c : Condition) : Z :=
  match c with
  | MissingBodyOrHeaders => 400
  | SignatureMismatch => 403
  | NoHandlerForTopic => 403
  | HandlerThrew => 500
  | HandlerSucceeded => 200
  end.

(** The three header names differ, also when case is ignored. *)
Definition distinctNames {Headers} (env : Collaborators Headers) : Prop :=
  JS.toLowerCase (Hmac env) <> JS.toLowerCase (Topic env)
  /\ JS.toLowerCase (Hmac env) <> JS.toLowerCase (Domain env)
  /\ JS.toLowerCase (Topic env) <> JS.toLowerCase (Domain env).

(** The required headers a request is missing, in the order Hmac, Topic,
    Domain. *)
Definition missing {Headers} (env : Collaborators Headers)
    (hs : list (string * string)) : list string :=
  filter (fun name => isMissing name hs = true) [Hmac env; Topic env; Domain env].

(** A request with a body and the three headers: [body], [h], [t] and [d]
    are the body, the received digest, the topic and the shop domain. *)
Definition complete {Headers} (env : Collaborators Headers)
    (request : Request.t Headers) (body h t d : string) : Prop :=
  Request.body request = Some body /\ body <> EmptyString
  /\ extractHeaders env (Request.headers request)
     = {| hmac := Some h; topic := Some t; domain := Some d |}
  /\ h <> EmptyString /\ t <> EmptyString /\ d <> EmptyString.

(** The digest a request should carry matches the one it carries. *)
Definition signed {Headers} (env : Collaborators Headers) (ctx : Context)
    (body h : string) : bool :=
  safeCompare env (createSHA256HMAC env (API_SECRET_KEY ctx) body) h.

(** Which row of the status table a request falls in. *)
Inductive conditionOf {Headers} (env : Collaborators Headers) (ctx : Context)
    (reg : Registry) (request : Request.t Headers) : Condition -> Prop :=
| body_missing :
    JS.truthyStr (Request.body request) = false ->
    conditionOf env ctx reg request MissingBodyOrHeaders
| header_missing :
    JS.truthyStr (Request.body request) = true ->
    (let x := extractHeaders env (Request.headers request) in
     JS.truthyStr (hmac x) && JS.truthyStr (topic x) && JS.truthyStr (domain x) = false) ->
    conditionOf env ctx reg request MissingBodyOrHeaders
| signature_mismatch body h t d :
    complete env request body h t d ->
    signed env ctx body h = false ->
    conditionOf env ctx reg request SignatureMismatch
| no_handler body h t d :
    complete env request body h t d ->
    signed env ctx body h = true ->
    getHandler (graphqlTopicOf t) reg = None ->
    conditionOf env ctx reg request NoHandlerForTopic
| handler_threw body h t d entry error :
    complete env request body h t d ->
    signed env ctx body h = true ->
    getHandler (graphqlTopicOf t) reg = Some entry ->
    webhookHandler entry (graphqlTopicOf t) d body = Err error ->
    conditionOf env ctx reg request HandlerThrew
| handler_succeeded body h t d entry :
    complete env request body h t d ->
    signed env ctx body h = true ->
    getHandler (graphqlTopicOf t) reg = Some entry ->
    webhookHandler entry (graphqlTopicOf t) d body = Ok tt ->
    conditionOf env ctx reg request HandlerSucceeded.

(** A key of the handler table in the form [process] looks topics up in:
    no slash and no lower-case letter. *)
Definition normalized (key : string) : bool :=
  negb (JS.occurs "/" key)
  && (fix go (s : string) : bool :=
        match s with
        | EmptyString => true
        | String c r => negb (JS.is_lower c) && go r
        end) key.

(** A string of digits: the keys a JavaScript object may list out of the
    order of insertion are among these. *)
Definition digitsOnly (key : string) : bool :=
  negb (String.eqb key EmptyString)
  && (fix go (s : string) : bool :=
        match s with
        | EmptyString => true
        | String c r =>
            Nat.leb 48 (nat_of_ascii c) && Nat.leb (nat_of_ascii c) 57 && go r
        end) key.

(** A key that a plain object stores and lists like any other: no string of
    digits, and not [__proto__]. *)
Definition plainKey (key : string) : bool :=
  negb (digitsOnly key) && negb (String.eqb key "__proto__").

(** The names of the members of [Object.prototype], which a read of a
    missing key answers with. *)
Definition objectMembers : list string :=
  [ "__proto__"; "constructor"; "hasOwnProperty"; "isPrototypeOf";
    "propertyIsEnumerable"; "toLocaleString"; "toString"; "valueOf";
    "__defineGetter__"; "__defineSetter__"; "__lookupGetter__";
    "__lookupSetter__" ].

Definition inherited (key : string) : bool :=
  existsb (String.eqb key) objectMembers.

(** The topic in the form of a key of the handler table, by the alphabet:
    a slash becomes an underscore, a small letter its capital, every other
    character stays. *)
Definition smallLetters : string := "abcdefghijklmnopqrstuvwxyz".
Definition capitalLetters : string := "ABCDEFGHIJKLMNOPQRSTUVWXYZ".

Fixpoint capitalOf (c : ascii) (small capital : string) : ascii :=
  match small, capital with
  | String l small', String u capital' =>
      if Ascii.eqb c l then u else capitalOf c small' capital'
  | _, _ => c
  end.

Definition normalizedChar (c : ascii) : ascii :=
  if Ascii.eqb c "/" then "_"%char else capitalOf c smallLetters capitalLetters.

Fixpoint normalizedTopic (topic : string) : string :=
  match topic with
  | EmptyString => EmptyString
  | String c r => String (normalizedChar c) (normalizedTopic r)
  end.

(** The topics of a list registered one after the other, each [register]
    call returning: from the mapping [acc] and the world [w] to the mapping
    [m], every returned mapping spread over the earlier ones, and the world
    [w']. *)
Inductive registeredInTurn {Remote : Type} (send : Transport Remote) (ctx : Context)
    (reg : Registry) (accessToken shop : string) (method : DeliveryMethod)
  : list string -> gmap string Outcome -> World Remote ->
    gmap string Outcome -> World Remote -> Prop :=
| turn_done acc w :
    registeredInTurn send ctx reg accessToken shop method [] acc w acc w
| turn_next t rest h acc w returned w1 m w' :
    getHandler t reg = Some h ->
    register send ctx (webhookOf accessToken shop method t h) w = (Ok returned, w1) ->
    registeredInTurn send ctx reg accessToken shop method rest (returned ∪ acc) w1 m w' ->
    registeredInTurn send ctx reg accessToken shop method (t :: rest) acc w m w'.

End Spec.

(** ** Stand-ins for the collaborators, for running the model *)

Module Double.

Definition subscriptionId : string := "gid://shopify/WebhookSubscription/1".

(** The endpoint object the remote side reports for a subscription made
    for [address] with [method]. *)
Definition endpointOf (method : DeliveryMethod) (address : string) : JS.Value :=
  match method with
  | Http =>
      JS.VObj [("__typename", JS.VStr "WebhookHttpEndpoint");
               ("callbackUrl", JS.VStr address)]
  | EventBridge =>
      JS.VObj [("__typename", JS.VStr "WebhookEventBridgeEndpoint");
               ("arn", JS.VStr address)]
  | PubSub =>
      let parts := JS.split ":" (JS.replacePrefix "pubsub://" address) in
      JS.VObj [("__typename", JS.VStr "WebhookPubSubEndpoint");
               ("pubSubProject", JS.VStr (JS.interpolate (parts !! 0%nat)));
               ("pubSubTopic", JS.VStr (JS.interpolate (parts !! 1%nat)))]
  end.

(** The body answering a check query: no edge, or one edge. *)
Definition checkAnswer (existing : option (string * JS.Value)) : JS.Value :=
  JS.VObj [("data", JS.VObj [("webhookSubscriptions", JS.VObj [("edges",
    JS.VArr match existing with
            | Some (i, ep) =>
                [JS.VObj [("node", JS.VObj [("id", JS.VStr i); ("endpoint", ep)])]]
            | None => []
            end)])])].

(** The body answering a mutation that went through. *)
Definition mutationAnswer (name : string) : JS.Value :=
  JS.VObj [("data", JS.VObj [(name, JS.VObj
    [("userErrors", JS.VArr []);
     ("webhookSubscription", JS.VObj [("id", JS.VStr subscriptionId)])])])].

Definition sameDocument (built : Result string) (data : string) : bool :=
  match built with Ok d => String.eqb d data | Err _ => false end.

(** A remote side that holds at most one subscription, for [topic]: it
    answers the check query from what it holds, and a create or an update
    for [address] with [method] by holding that endpoint. *)
Definition shopify (ctx : Context) (topic address : string) (method : DeliveryMethod)
  : Transport (option JS.Value) :=
  fun call held =>
    let data := call_data call in
    if String.eqb data (buildCheckQuery ctx topic) then
      (Ok (checkAnswer (pair subscriptionId <$> held)), held)
    else if sameDocument (buildQuery ctx topic address (Some method) None) data then
      (Ok (mutationAnswer (Spec.mutationName method false)),
       Some (endpointOf method address))
    else if sameDocument (buildQuery ctx topic address (Some method)
                            (Some subscriptionId)) data then
      (Ok (mutationAnswer (Spec.mutationName method true)),
       Some (endpointOf method address))
    else (Err (Rejection (JS.VStr "unexpected document")), held).

(** A remote side with no subscription that lets every [Http] create go
    through, except that the call sending [bad] rejects. *)
Definition rejecting (bad : string) : Transport unit :=
  fun call _ =>
    let data := call_data call in
    if String.eqb data bad then (Err (Rejection (JS.VStr "network error")), tt)
    else if String.prefix "{" data then (Ok (checkAnswer None), tt)
    else (Ok (mutationAnswer "webhookSubscriptionCreate"), tt).

Definition ctx : Context :=
  {| API_SECRET_KEY := "secret"; API_VERSION := "2021-10"; HOST_NAME := "app.example.com" |}.

Definition oldCtx : Context :=
  {| API_SECRET_KEY := "secret"; API_VERSION := "2021-04"; HOST_NAME := "app.example.com" |}.

Definition options (method : DeliveryMethod) (path : string) : RegisterOptions.t :=
  {| RegisterOptions.path := path;
     RegisterOptions.topic := "ORDERS_CREATE";
     RegisterOptions.accessToken := "token";
     RegisterOptions.shop := "shop.example.com";
     RegisterOptions.deliveryMethod := Some method |}.

Definition start {Remote} (r : Remote) : World Remote := {| remote := r; calls := [] |}.

(** [register] run twice in a row. *)
Definition registerTwice {Remote} (send : Transport Remote) (c : Context)
    (o : RegisterOptions.t) : M Remote (gmap string Outcome * gmap string Outcome) :=
  let* first := register send c o in
  let* second := register send c o in
  ret (first, second).

Definition quiet : WebhookHandler := fun _ _ _ => Ok tt.

(** A handler table with three topics, added in this order. *)
Definition threeTopics : Registry :=
  addHandlers
    [("ORDERS_CREATE", {| path := "/webhooks/orders"; webhookHandler := quiet |});
     ("PRODUCTS_UPDATE", {| path := "/webhooks/products"; webhookHandler := quiet |});
     ("APP_UNINSTALLED", {| path := "/webhooks/app"; webhookHandler := quiet |})]
    [].

Definition shortOptions : ShortenedRegisterOptions.t :=
  {| ShortenedRegisterOptions.accessToken := "token";
     ShortenedRegisterOptions.shop := "shop.example.com";
     ShortenedRegisterOptions.deliveryMethod := None |}.

Definition document (built : Result string) : string :=
  match built with Ok d => d | Err _ => EmptyString end.

(** The create mutation [registerAll] sends for the second of the topics. *)
Definition secondCreate : string :=
  document (buildQuery ctx "PRODUCTS_UPDATE"
              "https://app.example.com/webhooks/products" (Some Http) None).



(** Collaborators for running [process]: headers as the list of pairs they
    flatten to, a stand-in digest, and string equality to compare. *)
Definition env : Collaborators (list (string * string)) :=
  {| createSHA256HMAC := fun secret body => "hmac(" +:+ secret +:+ "," +:+ body +:+ ")";
     safeCompare := String.eqb;
     flatHeaders := fun hs => hs;
     Hmac := "X-Shopify-Hmac-Sha256";
     Topic := "X-Shopify-Topic";
     Domain := "X-Shopify-Shop-Domain" |}.

Definition failing : WebhookHandler :=
  fun _ _ _ => Err (Rejection (JS.VStr "handler failed")).

Definition ordersEntry (handler : WebhookHandler) : WebhookRegistryEntry :=
  {| path := "/webhooks"; webhookHandler := handler |}.

(** A table with one handler, under the key [key]. *)
Definition table (key : string) (handler : WebhookHandler) : Registry :=
  addHandler key (ordersEntry handler) [].

(** A delivery for the topic orders/create with body [{}], carrying the
    digest [digest]. *)
Definition delivery (digest : string) : Request.t (list (string * string)) :=
  {| Request.body := Some "{}";
     Request.headers := [("X-Shopify-Hmac-Sha256", digest);
                         ("X-Shopify-Topic", "orders/create");
                         ("X-Shopify-Shop-Domain", "shop.example.com")] |}.

Definition goodDigest : string := "hmac(secret,{})".

(** The same delivery without its topic header. *)
Definition noTopic : Request.t (list (string * string)) :=
  {| Request.body := Some "{}";
     Request.headers := [("X-Shopify-Hmac-Sha256", goodDigest);
                         ("X-Shopify-Shop-Domain", "shop.example.com")] |}.

Definition blank : Response.t :=
  {| Response.statusCode := None; Response.headers := None |}.

(** A handler that rejects with [undefined]. *)
Definition silent : WebhookHandler := fun _ _ _ => Err (Rejection JS.VUndefined).

(** A handler table with the same entry under two topics. *)
Definition twoTopics : Registry :=
  addHandler "PRODUCTS_UPDATE" (ordersEntry quiet) (table "ORDERS_CREATE" quiet).

Definition pubSubOptions : ShortenedRegisterOptions.t :=
  {| ShortenedRegisterOptions.accessToken := "token";
     ShortenedRegisterOptions.shop := "shop.example.com";
     ShortenedRegisterOptions.deliveryMethod := Some PubSub |}.

(** A remote side with no subscription that rejects nothing. *)
Definition willing : Transport unit := rejecting EmptyString.

(** The delivery with its header names in upper case. *)
Definition shouting : Request.t (list (string * string)) :=
  {| Request.body := Some "{}";
     Request.headers := [("X-SHOPIFY-HMAC-SHA256", goodDigest);
                         ("X-SHOPIFY-TOPIC", "orders/create");
                         ("X-SHOPIFY-SHOP-DOMAIN", "shop.example.com")] |}.

(** The delivery with one more header. *)
Definition withAgent : Request.t (list (string * string)) :=
  {| Request.body := Some "{}";
     Request.headers := [("X-Shopify-Hmac-Sha256", goodDigest);
                         ("User-Agent", "Shopify-Captain-Hook");
                         ("X-Shopify-Topic", "orders/create");
                         ("X-Shopify-Shop-Domain", "shop.example.com")] |}.

(** The delivery with an earlier, other topic header. *)
Definition repeated : Request.t (list (string * string)) :=
  {| Request.body := Some "{}";
     Request.headers := [("x-shopify-topic", "products/update");
                         ("X-Shopify-Hmac-Sha256", goodDigest);
                         ("X-Shopify-Topic", "orders/create");
                         ("X-Shopify-Shop-Domain", "shop.example.com")] |}.


End Double.

(** * Properties *)

(** ** Registration *)

Section Registration.

Context {Remote : Type} (send : Transport Remote) (ctx : Context).

Lemma client_query_answer shop accessToken data (w : World Remote) answer remote1 :
  send {| call_shop := shop; call_accessToken := accessToken; call_data := data |}
       (remote w) = (answer, remote1) ->
  client_query send shop accessToken data w
  = (answer, {| remote := remote1;
                calls := calls w ++ [{| call_shop := shop;
                                        call_accessToken := accessToken;
                                        call_data := data |}] |}).
Proof. intros H. unfold client_query. rewrite H. reflexivity. Qed.

Lemma targetAddress_eq options :
  (if bool_decide (default Http (RegisterOptions.deliveryMethod options) = Http)
   then "https://" +:+ HOST_NAME ctx +:+ RegisterOptions.path options
   else RegisterOptions.path options)
  = Spec.targetAddress ctx options.
Proof.
  unfold Spec.targetAddress.
  destruct (default Http (RegisterOptions.deliveryMethod options)); reflexivity.
Qed.

Lemma truthyStr_Some i : i <> EmptyString -> JS.truthyStr (Some i) = true.
Proof.
  intros H. simpl. destruct (String.eqb_spec i EmptyString); [contradiction|reflexivity].
Qed.

Lemma validate_buildQuery topic address method webhookId :
  validateDeliveryMethod ctx method = Ok tt ->
  buildQuery ctx topic address (Some method) webhookId
  = Ok (mutationDocument (Spec.mutationName method (JS.truthyStr webhookId))
          (Spec.identifier topic webhookId) (Spec.addressArgs method address)).
Proof.
  intros Hv. unfold buildQuery. simpl default. rewrite Hv.
  assert (Hid : (if JS.truthyStr webhookId
                 then "id: " +:+ dquote +:+ JS.interpolate webhookId +:+ dquote
                 else "topic: " +:+ topic) = Spec.identifier topic webhookId).
  { destruct webhookId as [i|]; simpl; [|reflexivity].
    destruct (String.eqb i EmptyString); reflexivity. }
  rewrite Hid.
  destruct method; destruct (JS.truthyStr webhookId); reflexivity.
Qed.



(** C5. A registration with delivery method PubSub while the configured API
    version is not at or after July 2021 fails with the unsupported-transport
    error and leaves the world as it was: no check query and no mutation is
    sent, and the remote side is not touched. *)
Theorem register_pubsub_below_cutoff options (w : World Remote) :
  RegisterOptions.deliveryMethod options = Some PubSub ->
  versionCompatible ApiVersion.July21 (API_VERSION ctx) = false ->
  register send ctx options w
  = (Err (UnsupportedClientType
            ("Pub/Sub webhooks are not supported in API version " +:+ dquote
             +:+ API_VERSION ctx +:+ dquote +:+ ".")), w).
Proof.
  intros Hm Hv. unfold register, bind. rewrite Hm. simpl default.
  unfold validateDeliveryMethod, versionSupportsPubSub. rewrite Hv.
  reflexivity.
Qed.


End Registration.

Section RegisterAll.

Context {Remote : Type} (send : Transport Remote) (ctx : Context).

Lemma register_ok_topic options (w w' : World Remote) m :
  register send ctx options w = (Ok m, w') ->
  is_Some (m !! RegisterOptions.topic options).
Proof.
  unfold register, bind, lift, orTypeError, ret, throw.
  intros H.
  repeat match type of H with
         | context [match ?x with _ => _ end] =>
             destruct x eqn:?; simpl in H; try discriminate H
         | context [if ?x then _ else _] =>
             destruct x eqn:?; simpl in H; try discriminate H
         end;
    injection H as <- _; rewrite lookup_singleton_eq; eexists; reflexivity.
Qed.

Lemma getTopics_getHandler (reg : Registry) t :
  t ∈ getTopics reg -> is_Some (getHandler t reg).
Proof.
  induction reg as [|[k v] r IH]; simpl.
  - intros H. inversion H.
  - intros H. destruct (String.eqb_spec k t) as [->|Hne]; [eexists; reflexivity|].
    apply IH. inversion H; subst; [contradiction|assumption].
Qed.

Lemma registerAll_loop_spec reg accessToken shop method topics :
  forall acc (w : World Remote),
    match registerAll_loop send ctx reg accessToken shop method topics acc w with
    | (Ok m, _) =>
        (forall t, t ∈ topics -> is_Some (getHandler t reg) -> is_Some (m !! t))
        /\ (forall t, is_Some (acc !! t) -> is_Some (m !! t))
    | (Err e, w') =>
        exists pre t h post acc1 w1,
          topics = pre ++ t :: post
          /\ getHandler t reg = Some h
          /\ registerAll_loop send ctx reg accessToken shop method pre acc w
             = (Ok acc1, w1)
          /\ register send ctx (webhookOf accessToken shop method t h) w1 = (Err e, w')
    end.
Proof.
  induction topics as [|topic rest IH]; intros acc w.
  - simpl. unfold ret. split; [intros t H; inversion H|auto].
  - simpl. destruct (getHandler topic reg) as [h|] eqn:Hh.
    + unfold bind at 1. fold (webhookOf accessToken shop method topic h).
      destruct (register send ctx (webhookOf accessToken shop method topic h) w)
        as [[m1|e] w1] eqn:Hreg.
      * specialize (IH (m1 ∪ acc) w1).
        destruct (registerAll_loop send ctx reg accessToken shop method rest
                    (m1 ∪ acc) w1) as [[m|e] w2] eqn:Hloop.
        -- destruct IH as [IHt IHacc]. split.
           ++ intros t Ht Hsome. inversion Ht; subst.
              ** apply IHacc. apply lookup_union_is_Some. left.
                 apply (register_ok_topic _ _ _ _ Hreg).
              ** apply IHt; assumption.
           ++ intros t Ht. apply IHacc. apply lookup_union_is_Some. right. exact Ht.
        -- destruct IH as (pre & t & h' & post & acc1 & w1' & -> & Hh' & Hpre & Hfail).
           exists (topic :: pre), t, h', post, acc1, w1'.
           repeat split; try assumption.
           simpl. rewrite Hh. unfold bind at 1.
           fold (webhookOf accessToken shop method topic h). rewrite Hreg. exact Hpre.
      * exists [], topic, h, rest, acc, w. repeat split; assumption.
    + specialize (IH acc w).
      destruct (registerAll_loop send ctx reg accessToken shop method rest acc w)
        as [[m|e] w2] eqn:Hloop.
      * destruct IH as [IHt IHacc]. split; [|exact IHacc].
        intros t Ht Hsome. inversion Ht; subst.
        -- rewrite Hh in Hsome. destruct Hsome as [? Hx]. discriminate Hx.
        -- apply IHt; assumption.
      * destruct IH as (pre & t & h' & post & acc1 & w1' & -> & Hh' & Hpre & Hfail).
        exists (topic :: pre), t, h', post, acc1, w1'.
        repeat split; try assumption.
        simpl. rewrite Hh. exact Hpre.
Qed.

Lemma registerAll_loop_turns reg accessToken shop method topics acc
    (w : World Remote) m w' :
  Spec.registeredInTurn send ctx reg accessToken shop method topics acc w m w' ->
  forall rest,
    registerAll_loop send ctx reg accessToken shop method (topics ++ rest) acc w
    = registerAll_loop send ctx reg accessToken shop method rest m w'.
Proof.
  induction 1 as [acc w|t rest' h acc w returned w1 m w' Hh Hreg _ IH]; intros rest.
  - reflexivity.
  - simpl. rewrite Hh. unfold bind at 1.
    fold (webhookOf accessToken shop method t h). rewrite Hreg. apply IH.
Qed.

(** C4, as the code has it. [registerAll] takes the topics of the handler
    table in order and catches no rejection. When every [register] call in
    turn returns, it returns the returned mappings merged, and a mapping it
    returns has an outcome for every topic of the table. When the calls for
    the topics before some topic return and the call for that topic rejects,
    [registerAll] rejects with the same reason in the world that call left:
    no mapping is returned and the topics after it are not processed. A
    rejection of [registerAll] always is of this kind. *)
Theorem registerAll_mapping_or_first_rejection reg options (w : World Remote) :
  let accessToken := ShortenedRegisterOptions.accessToken options in
  let shop := ShortenedRegisterOptions.shop options in
  let method := default Http (ShortenedRegisterOptions.deliveryMethod options) in
  (forall pre t h post acc1 w1 e w',
     getTopics reg = pre ++ t :: post ->
     Spec.registeredInTurn send ctx reg accessToken shop method pre ∅ w acc1 w1 ->
     getHandler t reg = Some h ->
     register send ctx (webhookOf accessToken shop method t h) w1 = (Err e, w') ->
     registerAll send ctx reg options w = (Err e, w'))
  /\ (forall m w',
        Spec.registeredInTurn send ctx reg accessToken shop method
          (getTopics reg) ∅ w m w' ->
        registerAll send ctx reg options w = (Ok m, w'))
  /\ match registerAll send ctx reg options w with
     | (Ok m, _) => forall t, t ∈ getTopics reg -> is_Some (m !! t)
     | (Err e, w') =>
         exists pre t h post acc1 w1,
           getTopics reg = pre ++ t :: post
           /\ getHandler t reg = Some h
           /\ registerAll_loop send ctx reg accessToken shop method pre ∅ w
              = (Ok acc1, w1)
           /\ register send ctx (webhookOf accessToken shop method t h) w1 = (Err e, w')
     end.
Proof.
  intros accessToken shop method. split; [|split].
  - intros pre t h post acc1 w1 e w' Htopics Hpre Hh Hreg.
    unfold registerAll. fold accessToken shop method. rewrite Htopics.
    rewrite (registerAll_loop_turns _ _ _ _ _ _ _ _ _ Hpre).
    simpl. rewrite Hh. unfold bind.
    fold (webhookOf accessToken shop method t h). rewrite Hreg. reflexivity.
  - intros m w' Hall.
    unfold registerAll. fold accessToken shop method.
    rewrite <- (app_nil_r (getTopics reg)).
    rewrite (registerAll_loop_turns _ _ _ _ _ _ _ _ _ Hall). reflexivity.
  - unfold registerAll.
    pose proof (registerAll_loop_spec reg accessToken shop method (getTopics reg) ∅ w)
      as H.
    fold accessToken shop method.
    destruct (registerAll_loop send ctx reg accessToken shop method (getTopics reg) ∅ w)
      as [[m|e] w'].
    + destruct H as [Ht _]. intros t Hin. apply Ht; [exact Hin|].
      apply getTopics_getHandler. exact Hin.
    + exact H.
Qed.

End RegisterAll.

(** C4, as stated, fails: with three topics in the table and a transport
    that rejects the create mutation of the second one, [registerAll]
    rejects; it returns no mapping, so no outcome for the first and the
    third topic, and the third topic is never sent for. *)
Lemma registerAll_second_rejects :
  let run := registerAll (Double.rejecting Double.secondCreate) Double.ctx
               Double.threeTopics Double.shortOptions (Double.start tt) in
  getTopics Double.threeTopics = ["ORDERS_CREATE"; "PRODUCTS_UPDATE"; "APP_UNINSTALLED"]
  /\ fst run = Err (Rejection (JS.VStr "network error"))
  /\ ~ (exists m, fst run = Ok m
                  /\ is_Some (m !! "ORDERS_CREATE") /\ is_Some (m !! "APP_UNINSTALLED"))
  /\ map call_data (calls (snd run))
     = [ buildCheckQuery Double.ctx "ORDERS_CREATE";
         Double.document (buildQuery Double.ctx "ORDERS_CREATE"
                            "https://app.example.com/webhooks/orders" (Some Http) None);
         buildCheckQuery Double.ctx "PRODUCTS_UPDATE";
         Double.secondCreate ].
Proof.
  assert (Hrun : fst (registerAll (Double.rejecting Double.secondCreate) Double.ctx
                        Double.threeTopics Double.shortOptions (Double.start tt))
                 = Err (Rejection (JS.VStr "network error"))).
  { vm_compute. reflexivity. }
  cbv zeta. split; [vm_compute; reflexivity|].
  split; [exact Hrun|]. split.
  - intros (m & Hm & _). rewrite Hrun in Hm. discriminate Hm.
  - vm_compute. reflexivity.
Qed.

(** C4 at the table of three topics: the first topic goes through, the
    create mutation of the second is rejected, and [registerAll] rejects. *)
Lemma registerAll_mapping_or_first_rejection_witness :
  exists w',
    registerAll (Double.rejecting Double.secondCreate) Double.ctx
      Double.threeTopics Double.shortOptions (Double.start tt)
    = (Err (Rejection (JS.VStr "network error")), w')
    /\ length (calls w') = 4%nat.
Proof.
  destruct (registerAll_mapping_or_first_rejection
              (Double.rejecting Double.secondCreate) Double.ctx
              Double.threeTopics Double.shortOptions (Double.start tt))
    as (Hrejects & _ & _).
  cbv zeta in Hrejects.
  eexists. split.
  - eapply (Hrejects ["ORDERS_CREATE"] "PRODUCTS_UPDATE" _ ["APP_UNINSTALLED"]).
    + reflexivity.
    + eapply Spec.turn_next; [reflexivity|vm_compute; reflexivity|apply Spec.turn_done].
    + reflexivity.
    + vm_compute. reflexivity.
  - reflexivity.
Defined.

(** ** Registering twice on the Http and EventBridge paths *)





(** C1 on the PubSub path. The remote side holds no subscription at first;
    the first [register] creates one for the address, the remote side then
    reports exactly that project and topic, and the second [register] for
    the same address still sends a mutation, the update: two mutations in
    all, where the Http and EventBridge paths send one. *)
Theorem register_twice_pubsub_two_mutations :
  let address := "pubsub://my-project:my-topic" in
  let o := Double.options PubSub address in
  let run := Double.registerTwice
               (Double.shopify Double.ctx "ORDERS_CREATE" address PubSub)
               Double.ctx o (Double.start None) in
  map call_data (calls (snd run))
  = [ buildCheckQuery Double.ctx "ORDERS_CREATE";
      mutationDocument "pubSubWebhookSubscriptionCreate" "topic: ORDERS_CREATE"
        (Spec.pubSubArgs "my-project" "my-topic");
      buildCheckQuery Double.ctx "ORDERS_CREATE";
      mutationDocument "pubSubWebhookSubscriptionUpdate"
        ("id: " +:+ dquote +:+ Double.subscriptionId +:+ dquote)
        (Spec.pubSubArgs "my-project" "my-topic") ]
  /\ remote (snd run)
     = Some (JS.VObj [("__typename", JS.VStr "WebhookPubSubEndpoint");
                      ("pubSubProject", JS.VStr "my-project");
                      ("pubSubTopic", JS.VStr "my-topic")]).
Proof. split; vm_compute; reflexivity. Qed.

(** C5 at API version 2021-04. *)
Lemma register_pubsub_below_cutoff_witness :
  versionCompatible ApiVersion.July21 (API_VERSION Double.oldCtx) = false
  /\ register (Double.shopify Double.oldCtx "ORDERS_CREATE"
                 "pubsub://my-project:my-topic" PubSub)
       Double.oldCtx (Double.options PubSub "pubsub://my-project:my-topic")
       (Double.start None)
     = (Err (UnsupportedClientType
               ("Pub/Sub webhooks are not supported in API version " +:+ dquote
                +:+ "2021-04" +:+ dquote +:+ ".")),
        Double.start None).
Proof.
  split; [reflexivity|].
  apply (register_pubsub_below_cutoff
           (Double.shopify Double.oldCtx "ORDERS_CREATE"
              "pubsub://my-project:my-topic" PubSub)
           Double.oldCtx (Double.options PubSub "pubsub://my-project:my-topic")
           (Double.start None)); reflexivity.
Defined.


(** ** The mutation document *)

Lemma split_without_separator sep s :
  JS.occurs sep s = false -> JS.split sep s = [s].
Proof.
  induction s as [|c r IH]; simpl; [reflexivity|].
  intros H. apply orb_false_iff in H as [Hc Hr].
  rewrite Hc, (IH Hr). reflexivity.
Qed.

Lemma split_at_separator sep a b :
  JS.occurs sep a = false ->
  JS.split sep (a +:+ String sep b) = a :: JS.split sep b.
Proof.
  induction a as [|c r IH]; simpl.
  - intros _. rewrite Ascii.eqb_refl. reflexivity.
  - intros H. apply orb_false_iff in H as [Hc Hr].
    rewrite Hc, (IH Hr). reflexivity.
Qed.

Lemma pubSub_address_parts project pubSubTopic :
  JS.occurs ":" project = false ->
  JS.occurs ":" pubSubTopic = false ->
  JS.split ":" (JS.replacePrefix "pubsub://"
                  ("pubsub://" +:+ project +:+ ":" +:+ pubSubTopic))
  = [project; pubSubTopic].
Proof.
  intros Hp Ht.
  change (JS.replacePrefix "pubsub://" ("pubsub://" +:+ project +:+ ":" +:+ pubSubTopic))
    with (project +:+ String ":" pubSubTopic).
  rewrite (split_at_separator _ _ _ Hp), (split_without_separator _ _ Ht).
  reflexivity.
Qed.

(** C7. When the delivery method is allowed at the configured version,
    [buildQuery] returns the mutation document whose mutation is the one the
    method table gives, the update of the method exactly when a (non-empty)
    subscription id is supplied and the create otherwise, and whose address
    argument has the shape of the method; an absent method counts as Http.
    For PubSub and an address pubsub://project:topic the argument names that
    project and that topic. *)
Theorem buildQuery_follows_method_table ctx topic address method webhookId
    project pubSubTopic :
  validateDeliveryMethod ctx method = Ok tt ->
  JS.occurs ":" project = false ->
  JS.occurs ":" pubSubTopic = false ->
  buildQuery ctx topic address (Some method) webhookId
  = Ok (mutationDocument (Spec.mutationName method (JS.truthyStr webhookId))
          (Spec.identifier topic webhookId) (Spec.addressArgs method address))
  /\ buildQuery ctx topic address None webhookId
     = buildQuery ctx topic address (Some Http) webhookId
  /\ Spec.addressArgs PubSub ("pubsub://" +:+ project +:+ ":" +:+ pubSubTopic)
     = Spec.pubSubArgs project pubSubTopic
  /\ (Spec.mutationName Http false, Spec.mutationName Http true)
     = ("webhookSubscriptionCreate", "webhookSubscriptionUpdate")
  /\ (Spec.mutationName EventBridge false, Spec.mutationName EventBridge true)
     = ("eventBridgeWebhookSubscriptionCreate", "eventBridgeWebhookSubscriptionUpdate")
  /\ (Spec.mutationName PubSub false, Spec.mutationName PubSub true)
     = ("pubSubWebhookSubscriptionCreate", "pubSubWebhookSubscriptionUpdate").
Proof.
  intros Hv Hp Ht. split; [exact (validate_buildQuery ctx _ _ _ _ Hv)|].
  split; [reflexivity|]. split; [|repeat split].
  unfold Spec.addressArgs, Spec.pubSubArgs.
  rewrite (pubSub_address_parts _ _ Hp Ht). reflexivity.
Qed.

(** C7 for a PubSub update. *)
Lemma buildQuery_follows_method_table_witness :
  validateDeliveryMethod Double.ctx PubSub = Ok tt
  /\ buildQuery Double.ctx "ORDERS_CREATE" "pubsub://my-project:my-topic"
       (Some PubSub) (Some Double.subscriptionId)
     = Ok (mutationDocument "pubSubWebhookSubscriptionUpdate"
             ("id: " +:+ dquote +:+ Double.subscriptionId +:+ dquote)
             (Spec.pubSubArgs "my-project" "my-topic")).
Proof.
  split; [reflexivity|].
  destruct (buildQuery_follows_method_table Double.ctx "ORDERS_CREATE"
              "pubsub://my-project:my-topic" PubSub (Some Double.subscriptionId)
              "my-project" "my-topic" eq_refl eq_refl eq_refl) as [H _].
  exact H.
Defined.

(** ** Inbound processing *)

Section Processing.

Context {Headers : Type} (env : Collaborators Headers) (ctx : Context).

Lemma truthyStr_true (s : option string) :
  JS.truthyStr s = true <-> exists v, s = Some v /\ v <> EmptyString.
Proof.
  destruct s as [v|]; simpl.
  - destruct (String.eqb_spec v EmptyString) as [->|Hne]; simpl; split.
    + discriminate.
    + intros (v & Hv & Hne). injection Hv as <-. contradiction.
    + intros _. exists v. split; [reflexivity|assumption].
    + reflexivity.
  - split; [discriminate|]. intros (v & Hv & _). discriminate Hv.
Qed.

Lemma missingHeaders_complete h t d :
  h <> EmptyString -> t <> EmptyString -> d <> EmptyString ->
  missingHeaders env {| hmac := Some h; topic := Some t; domain := Some d |} = [].
Proof.
  intros Hh Ht Hd. unfold missingHeaders. simpl hmac. simpl topic. simpl domain.
  rewrite (truthyStr_Some _ Hh), (truthyStr_Some _ Ht), (truthyStr_Some _ Hd).
  reflexivity.
Qed.

(** Past the two guards, [process] is the signature check and the dispatch. *)
Lemma process_complete reg (request : Request.t Headers) resp body h t d :
  Spec.complete env request body h t d ->
  process env ctx reg request resp
  = let graphqlTopic := graphqlTopicOf t in
    if Spec.signed env ctx body h then
      match getHandler graphqlTopic reg with
      | Some webhookEntry =>
          let call := {| dispatch_entry := webhookEntry;
                         dispatch_topic := graphqlTopic;
                         dispatch_domain := d;
                         dispatch_body := body |} in
          match webhookHandler webhookEntry graphqlTopic d body with
          | Ok _ =>
              {| response := {| Response.statusCode := Some StatusCode.Ok;
                                Response.headers := Some [] |};
                 thrown := None;
                 dispatched := [call] |}
          | Err error =>
              {| response := {| Response.statusCode :=
                                  Some StatusCode.InternalServerError;
                                Response.headers := Some [] |};
                 thrown := if truthyThrown error then Some error else None;
                 dispatched := [call] |}
          end
      | None =>
          {| response := {| Response.statusCode := Some StatusCode.Forbidden;
                            Response.headers := Some [] |};
             thrown := Some (InvalidWebhookError
                               ("No webhook is registered for topic " +:+ t));
             dispatched := [] |}
      end
    else
      {| response := {| Response.statusCode := Some StatusCode.Forbidden;
                        Response.headers := Some [] |};
         thrown := Some (InvalidWebhookError
                           ("Could not validate request for topic " +:+ t));
         dispatched := [] |}.
Proof.
  intros (Hb & Hbne & Hx & Hh & Ht & Hd).
  unfold process. rewrite Hb, (truthyStr_Some _ Hbne). simpl negb. cbv iota.
  rewrite Hx, (missingHeaders_complete _ _ _ Hh Ht Hd).
  simpl length. simpl Nat.ltb. cbv iota. simpl default. simpl hmac. simpl topic.
  simpl domain. unfold Spec.signed. cbv zeta.
  destruct (safeCompare env _ h); [|reflexivity].
  destruct (getHandler (graphqlTopicOf t) reg) as [entry|]; [|reflexivity].
  destruct (webhookHandler entry (graphqlTopicOf t) d body); reflexivity.
Qed.

(** C3. A request with a body and the three headers whose received digest
    does not match the digest computed over the body: no handler is called,
    whatever the handler table holds, the response status is 403, and the
    error thrown is InvalidWebhookError. *)
Theorem process_signature_mismatch_forbidden reg (request : Request.t Headers)
    resp body h t d :
  Spec.complete env request body h t d ->
  safeCompare env (createSHA256HMAC env (API_SECRET_KEY ctx) body) h = false ->
  let r := process env ctx reg request resp in
  dispatched r = []
  /\ Response.statusCode (response r) = Some 403%Z
  /\ thrown r = Some (InvalidWebhookError
                        ("Could not validate request for topic " +:+ t)).
Proof.
  intros Hc Hsig. cbv zeta. rewrite (process_complete _ _ _ _ _ _ _ Hc). cbv zeta.
  unfold Spec.signed. rewrite Hsig. repeat split.
Qed.

Lemma missingHeaders_length (x : Extracted) :
  Nat.ltb 0 (length (missingHeaders env x))
  = negb (JS.truthyStr (hmac x) && JS.truthyStr (topic x) && JS.truthyStr (domain x)).
Proof.
  unfold missingHeaders.
  destruct (JS.truthyStr (hmac x)), (JS.truthyStr (topic x)),
    (JS.truthyStr (domain x)); reflexivity.
Qed.

Lemma process_header_missing reg (request : Request.t Headers) resp :
  JS.truthyStr (Request.body request) = true ->
  (let x := extractHeaders env (Request.headers request) in
   JS.truthyStr (hmac x) && JS.truthyStr (topic x) && JS.truthyStr (domain x) = false) ->
  process env ctx reg request resp
  = {| response := setStatus resp StatusCode.BadRequest;
       thrown := Some (InvalidWebhookError
         ("Missing one or more of the required HTTP headers to process webhooks: ["
          +:+ JS.join ", "
                (missingHeaders env (extractHeaders env (Request.headers request)))
          +:+ "]"));
       dispatched := [] |}.
Proof.
  cbv zeta. intros Hb Hx. unfold process. rewrite Hb. simpl negb. cbv iota zeta.
  rewrite missingHeaders_length, Hx. reflexivity.
Qed.

(** Every request falls in a row of the status table. *)
Lemma every_request_has_a_condition reg (request : Request.t Headers) :
  exists c, Spec.conditionOf env ctx reg request c.
Proof.
  destruct (JS.truthyStr (Request.body request)) eqn:Hb.
  2:{ exists Spec.MissingBodyOrHeaders. apply Spec.body_missing. exact Hb. }
  destruct (extractHeaders env (Request.headers request)) as [hm tp dm] eqn:Hx.
  destruct (JS.truthyStr hm && JS.truthyStr tp && JS.truthyStr dm) eqn:Hall.
  2:{ exists Spec.MissingBodyOrHeaders. apply Spec.header_missing; [exact Hb|].
      cbv zeta. rewrite Hx. exact Hall. }
  apply andb_true_iff in Hall as [Hall Hd]. apply andb_true_iff in Hall as [Hh Ht].
  apply truthyStr_true in Hb as (body & Hbody & Hbne).
  apply truthyStr_true in Hh as (h & -> & Hhne).
  apply truthyStr_true in Ht as (t & -> & Htne).
  apply truthyStr_true in Hd as (d & -> & Hdne).
  assert (Hc : Spec.complete env request body h t d).
  { repeat split; assumption. }
  destruct (Spec.signed env ctx body h) eqn:Hsig.
  2:{ exists Spec.SignatureMismatch. eapply Spec.signature_mismatch; eassumption. }
  destruct (getHandler (graphqlTopicOf t) reg) as [entry|] eqn:Hg.
  2:{ exists Spec.NoHandlerForTopic. eapply Spec.no_handler; eassumption. }
  destruct (webhookHandler entry (graphqlTopicOf t) d body) as [[]|error] eqn:Hr.
  - exists Spec.HandlerSucceeded. eapply Spec.handler_succeeded; eassumption.
  - exists Spec.HandlerThrew. eapply Spec.handler_threw; eassumption.
Qed.

(** C8. Whatever row of the status table a request falls in, [process]
    leaves that row's status on the response: 400 for a missing body or a
    missing header, 403 for a signature mismatch, 403 for a topic without a
    handler, 500 when the handler throws or rejects, 200 when it completes.
    The status is on the response that comes with the thrown error: an
    InvalidWebhookError in the first three rows, the handler's own error in
    the fourth, none in the last. *)
Theorem process_status_table reg (request : Request.t Headers) resp c :
  Spec.conditionOf env ctx reg request c ->
  let r := process env ctx reg request resp in
  Response.statusCode (response r) = Some (Spec.statusFor c)
  /\ match c with
     | Spec.HandlerSucceeded => thrown r = None
     | Spec.HandlerThrew =>
         exists call error,
           dispatched r = [call]
           /\ webhookHandler (dispatch_entry call) (dispatch_topic call)
                (dispatch_domain call) (dispatch_body call) = Err error
           /\ thrown r = (if truthyThrown error then Some error else None)
     | _ => exists message, thrown r = Some (InvalidWebhookError message)
     end.
Proof.
  intros Hc. cbv zeta.
  destruct Hc as [Hb|Hb Hx|body h t d Hc Hsig|body h t d Hc Hsig Hg
                  |body h t d entry error Hc Hsig Hg Hr|body h t d entry Hc Hsig Hg Hr].
  - unfold process. rewrite Hb. simpl. split; [reflexivity|eexists; reflexivity].
  - rewrite (process_header_missing _ _ _ Hb Hx). simpl.
    split; [reflexivity|eexists; reflexivity].
  - rewrite (process_complete _ _ _ _ _ _ _ Hc). cbv zeta. rewrite Hsig. simpl.
    split; [reflexivity|eexists; reflexivity].
  - rewrite (process_complete _ _ _ _ _ _ _ Hc). cbv zeta. rewrite Hsig, Hg. simpl.
    split; [reflexivity|eexists; reflexivity].
  - rewrite (process_complete _ _ _ _ _ _ _ Hc). cbv zeta. rewrite Hsig, Hg, Hr. simpl.
    split; [reflexivity|]. eexists _, error. split; [reflexivity|].
    split; [exact Hr|reflexivity].
  - rewrite (process_complete _ _ _ _ _ _ _ Hc). cbv zeta. rewrite Hsig, Hg, Hr. simpl.
    split; reflexivity.
Qed.

Lemma lookupHeader_snoc name l header value :
  Spec.lookupHeader name (l ++ [(header, value)])
  = if String.eqb (JS.toLowerCase header) (JS.toLowerCase name)
    then Some value else Spec.lookupHeader name l.
Proof.
  unfold Spec.lookupHeader. rewrite filter_app, filter_cons, filter_nil. simpl fst.
  destruct (String.eqb_spec (JS.toLowerCase header) (JS.toLowerCase name)) as [He|He].
  - rewrite decide_True by exact He. rewrite last_snoc. reflexivity.
  - rewrite decide_False by exact He. rewrite app_nil_r. reflexivity.
Qed.

(** The header loop finds, for each of the three names, the value the
    request carries for it. *)
Lemma extract_lookup (l : list (string * string)) :
  Spec.distinctNames env ->
  fold_left (extractStep env) l {| hmac := None; topic := None; domain := None |}
  = {| hmac := Spec.lookupHeader (Hmac env) l;
       topic := Spec.lookupHeader (Topic env) l;
       domain := Spec.lookupHeader (Domain env) l |}.
Proof.
  intros (Hht & Hhd & Htd).
  induction l as [|[header value] l IH] using rev_ind; [reflexivity|].
  rewrite fold_left_app, IH. simpl fold_left. unfold extractStep.
  rewrite !lookupHeader_snoc. simpl hmac. simpl topic. simpl domain.
  destruct (String.eqb_spec (JS.toLowerCase header) (JS.toLowerCase (Hmac env)))
    as [Eh|Nh].
  - rewrite Eh.
    rewrite (proj2 (String.eqb_neq _ _) Hht), (proj2 (String.eqb_neq _ _) Hhd).
    reflexivity.
  - destruct (String.eqb_spec (JS.toLowerCase header) (JS.toLowerCase (Topic env)))
      as [Et|Nt].
    + rewrite Et. rewrite (proj2 (String.eqb_neq _ _) Htd). reflexivity.
    + destruct (String.eqb (JS.toLowerCase header) (JS.toLowerCase (Domain env)));
        reflexivity.
Qed.

Lemma missingHeaders_spec (hs : Headers) :
  Spec.distinctNames env ->
  missingHeaders env (extractHeaders env hs) = Spec.missing env (flatHeaders env hs).
Proof.
  intros Hd. unfold extractHeaders. rewrite (extract_lookup _ Hd).
  unfold missingHeaders, Spec.missing, Spec.isMissing.
  simpl hmac. simpl topic. simpl domain.
  rewrite !filter_cons, filter_nil.
  destruct (JS.truthyStr (Spec.lookupHeader (Hmac env) (flatHeaders env hs)));
    destruct (JS.truthyStr (Spec.lookupHeader (Topic env) (flatHeaders env hs)));
    destruct (JS.truthyStr (Spec.lookupHeader (Domain env) (flatHeaders env hs)));
    reflexivity.
Qed.

(** C9. A request with a body that is missing one or more of the three
    headers: the status is 400, no handler is called, and the error is an
    InvalidWebhookError whose message lists every missing header and no
    other, in the order Hmac, Topic, Domain. When only the topic header is
    missing the list is the topic header alone; when all three are, it is
    the three of them. *)
Theorem process_lists_missing_headers reg (request : Request.t Headers) resp body :
  Spec.distinctNames env ->
  Request.body request = Some body ->
  body <> EmptyString ->
  let hs := flatHeaders env (Request.headers request) in
  Spec.missing env hs <> [] ->
  let r := process env ctx reg request resp in
  Response.statusCode (response r) = Some 400%Z
  /\ thrown r = Some (InvalidWebhookError
       ("Missing one or more of the required HTTP headers to process webhooks: ["
        +:+ JS.join ", " (Spec.missing env hs) +:+ "]"))
  /\ dispatched r = []
  /\ (Spec.isMissing (Hmac env) hs = false ->
      Spec.isMissing (Topic env) hs = true ->
      Spec.isMissing (Domain env) hs = false ->
      Spec.missing env hs = [Topic env])
  /\ (Spec.isMissing (Hmac env) hs = true ->
      Spec.isMissing (Topic env) hs = true ->
      Spec.isMissing (Domain env) hs = true ->
      Spec.missing env hs = [Hmac env; Topic env; Domain env]).
Proof.
  intros Hd Hb Hbne hs Hmiss. cbv zeta.
  assert (Hx : let x := extractHeaders env (Request.headers request) in
               JS.truthyStr (hmac x) && JS.truthyStr (topic x)
               && JS.truthyStr (domain x) = false).
  { cbv zeta. apply negb_true_iff. rewrite <- missingHeaders_length.
    rewrite (missingHeaders_spec _ Hd). fold hs.
    destruct (Spec.missing env hs); [contradiction|reflexivity]. }
  rewrite process_header_missing; [|rewrite Hb; apply truthyStr_Some; exact Hbne|exact Hx].
  rewrite (missingHeaders_spec _ Hd). fold hs. simpl.
  split; [reflexivity|]. split; [reflexivity|]. split; [reflexivity|].
  unfold Spec.missing. rewrite !filter_cons, filter_nil.
  split; intros -> -> ->; reflexivity.
Qed.

Lemma getHandler_assign_eq topic entry (reg : Registry) :
  getHandler topic (assign topic entry reg) = Some entry.
Proof.
  induction reg as [|[k v] r IH]; simpl.
  - rewrite String.eqb_refl. reflexivity.
  - destruct (String.eqb_spec k topic) as [->|Hne]; simpl.
    + rewrite String.eqb_refl. reflexivity.
    + rewrite (proj2 (String.eqb_neq _ _) Hne). exact IH.
Qed.

Lemma getHandler_assign_ne topic key entry (reg : Registry) :
  key <> topic ->
  getHandler key (assign topic entry reg) = getHandler key reg.
Proof.
  intros Hne. induction reg as [|[k v] r IH]; simpl.
  - destruct (String.eqb_spec topic key) as [->|_]; [contradiction|reflexivity].
  - destruct (String.eqb_spec k topic) as [->|Hk]; simpl.
    + destruct (String.eqb_spec topic key) as [->|_]; [contradiction|reflexivity].
    + rewrite IH. reflexivity.
Qed.

Lemma normalized_char (c : ascii) :
  let c' := if Ascii.eqb (JS.upper_char c) "/" then "_"%char else JS.upper_char c in
  Ascii.eqb c' "/" = false /\ JS.is_lower c' = false.
Proof.
  destruct c as [[] [] [] [] [] [] [] []]; vm_compute; split; reflexivity.
Qed.

(** The key [process] looks up has no slash and no lower-case letter. *)
Lemma graphqlTopicOf_normalized t : Spec.normalized (graphqlTopicOf t) = true.
Proof.
  unfold Spec.normalized, graphqlTopicOf, JS.replaceAll, JS.toUpperCase.
  apply andb_true_iff.
  induction t as [|c r [IH1 IH2]]; [split; reflexivity|].
  destruct (normalized_char c) as [Hs Hl]. cbv zeta in Hs, Hl.
  simpl. rewrite Hs, Hl. split; [exact IH1|exact IH2].
Qed.

Lemma graphqlTopicOf_ne_key t key :
  Spec.normalized key = false -> graphqlTopicOf t <> key.
Proof.
  intros Hk Heq. rewrite <- Heq, graphqlTopicOf_normalized in Hk. discriminate Hk.
Qed.

Lemma normalizedChar_eq (c : ascii) :
  (if Ascii.eqb (JS.upper_char c) "/" then "_"%char else JS.upper_char c)
  = Spec.normalizedChar c.
Proof. destruct c as [[] [] [] [] [] [] [] []]; vm_compute; reflexivity. Qed.

(** The key [process] computes is the topic with each slash turned into an
    underscore and each small letter into its capital. *)
Lemma graphqlTopicOf_normalizedTopic t : graphqlTopicOf t = Spec.normalizedTopic t.
Proof.
  unfold graphqlTopicOf, JS.replaceAll, JS.toUpperCase.
  induction t as [|c r IH]; [reflexivity|].
  simpl. rewrite normalizedChar_eq, IH. reflexivity.
Qed.

(** C10. [addHandler] stores the entry under the topic string as it is
    given (any key but [__proto__], which a JavaScript object does not
    store) and touches no other key. For a request with a body, the three
    headers, a matching digest and an ASCII topic header, [process] calls a
    handler exactly when the table has an entry under the topic header with
    every small letter turned into its capital and every slash into an
    underscore, and then calls that entry, once, with that key. A key that
    is not of this form, such as orders/create, is never the key looked up:
    an entry stored under it leaves [process] as it was. *)
Theorem handler_dispatched_under_normalized_key reg (request : Request.t Headers)
    resp body h t d key entry :
  Spec.complete env request body h t d ->
  safeCompare env (createSHA256HMAC env (API_SECRET_KEY ctx) body) h = true ->
  JS.isAscii t = true ->
  key <> "__proto__" ->
  let r := process env ctx reg request resp in
  getHandler key (addHandler key entry reg) = Some entry
  /\ (forall other, other <> key ->
        getHandler other (addHandler key entry reg) = getHandler other reg)
  /\ dispatched r
     = match getHandler (Spec.normalizedTopic t) reg with
       | Some found => [{| dispatch_entry := found;
                           dispatch_topic := Spec.normalizedTopic t;
                           dispatch_domain := d;
                           dispatch_body := body |}]
       | None => []
       end
  /\ (Spec.normalized key = false ->
      Spec.normalizedTopic t <> key
      /\ process env ctx (addHandler key entry reg) request resp = r)
  /\ Spec.normalized "orders/create" = false
  /\ Spec.normalizedTopic "orders/create" = "ORDERS_CREATE".
Proof.
  intros Hc Hsig _ _. cbv zeta.
  split; [|split; [|split; [|split; [|split]]]].
  - unfold addHandler. rewrite getHandler_assign_eq. destruct entry; reflexivity.
  - intros other Hne. unfold addHandler. apply getHandler_assign_ne. exact Hne.
  - rewrite (process_complete _ _ _ _ _ _ _ Hc). cbv zeta.
    unfold Spec.signed. rewrite Hsig. rewrite <- graphqlTopicOf_normalizedTopic.
    destruct (getHandler (graphqlTopicOf t) reg) as [found|]; [|reflexivity].
    destruct (webhookHandler found (graphqlTopicOf t) d body); reflexivity.
  - intros Hk. rewrite <- graphqlTopicOf_normalizedTopic.
    split; [apply graphqlTopicOf_ne_key; exact Hk|].
    rewrite !(process_complete _ _ _ _ _ _ _ Hc). cbv zeta.
    unfold addHandler. rewrite getHandler_assign_ne; [reflexivity|].
    apply graphqlTopicOf_ne_key. exact Hk.
  - reflexivity.
  - reflexivity.
Qed.

End Processing.

Lemma delivery_complete digest :
  digest <> EmptyString ->
  Spec.complete Double.env (Double.delivery digest) "{}" digest "orders/create"
    "shop.example.com".
Proof.
  intros H. repeat split; try discriminate. exact H.
Qed.

(** C3 for a delivery with a wrong digest and a handler for its topic. *)
Lemma process_signature_mismatch_forbidden_witness :
  let reg := Double.table "ORDERS_CREATE" Double.quiet in
  let r := process Double.env Double.ctx reg (Double.delivery "bogus") Double.blank in
  is_Some (getHandler (graphqlTopicOf "orders/create") reg)
  /\ dispatched r = []
  /\ Response.statusCode (response r) = Some 403%Z
  /\ thrown r = Some (InvalidWebhookError
                        ("Could not validate request for topic " +:+ "orders/create")).
Proof.
  cbv zeta. split; [eexists; reflexivity|].
  apply (process_signature_mismatch_forbidden Double.env Double.ctx
           (Double.table "ORDERS_CREATE" Double.quiet) (Double.delivery "bogus")
           Double.blank "{}" "bogus" "orders/create" "shop.example.com").
  - apply delivery_complete. discriminate.
  - reflexivity.
Defined.

(** C8 for a delivery whose handler rejects. *)
Lemma process_status_table_witness :
  let reg := Double.table "ORDERS_CREATE" Double.failing in
  let r := process Double.env Double.ctx reg (Double.delivery Double.goodDigest)
             Double.blank in
  Response.statusCode (response r) = Some 500%Z
  /\ exists call error,
       dispatched r = [call]
       /\ webhookHandler (dispatch_entry call) (dispatch_topic call)
            (dispatch_domain call) (dispatch_body call) = Err error
       /\ thrown r = (if truthyThrown error then Some error else None).
Proof.
  apply (process_status_table Double.env Double.ctx
           (Double.table "ORDERS_CREATE" Double.failing)
           (Double.delivery Double.goodDigest) Double.blank Spec.HandlerThrew).
  apply (Spec.handler_threw Double.env Double.ctx _ _ "{}" Double.goodDigest
           "orders/create" "shop.example.com" (Double.ordersEntry Double.failing)
           (Rejection (JS.VStr "handler failed"))).
  - apply delivery_complete. discriminate.
  - reflexivity.
  - reflexivity.
  - reflexivity.
Defined.

Lemma double_names_distinct : Spec.distinctNames Double.env.
Proof. repeat split; discriminate. Qed.

(** C9 for a delivery without its topic header. *)
Lemma process_lists_missing_headers_witness :
  let r := process Double.env Double.ctx (Double.table "ORDERS_CREATE" Double.quiet)
             Double.noTopic Double.blank in
  Spec.missing Double.env (Request.headers Double.noTopic) = ["X-Shopify-Topic"]
  /\ Response.statusCode (response r) = Some 400%Z
  /\ thrown r = Some (InvalidWebhookError
       "Missing one or more of the required HTTP headers to process webhooks: [X-Shopify-Topic]").
Proof.
  cbv zeta. split; [reflexivity|].
  destruct (process_lists_missing_headers Double.env Double.ctx
              (Double.table "ORDERS_CREATE" Double.quiet) Double.noTopic Double.blank
              "{}" double_names_distinct eq_refl) as (Hs & Ht & _).
  - discriminate.
  - discriminate.
  - split; [exact Hs|exact Ht].
Defined.

(** C10 for the topic orders/create: dispatched from the key ORDERS_CREATE,
    not from the key orders/create. *)
Lemma handler_dispatched_under_normalized_key_witness :
  let reg := Double.table "ORDERS_CREATE" Double.quiet in
  let request := Double.delivery Double.goodDigest in
  dispatched (process Double.env Double.ctx reg request Double.blank)
  = [{| dispatch_entry := Double.ordersEntry Double.quiet;
        dispatch_topic := "ORDERS_CREATE";
        dispatch_domain := "shop.example.com";
        dispatch_body := "{}" |}]
  /\ dispatched (process Double.env Double.ctx
                   (Double.table "orders/create" Double.quiet) request Double.blank)
     = [].
Proof.
  cbv zeta. split.
  - destruct (handler_dispatched_under_normalized_key Double.env Double.ctx
                (Double.table "ORDERS_CREATE" Double.quiet)
                (Double.delivery Double.goodDigest) Double.blank "{}"
                Double.goodDigest "orders/create" "shop.example.com"
                "orders/create" (Double.ordersEntry Double.quiet))
      as (_ & _ & Hd & _).
    + apply delivery_complete. discriminate.
    + reflexivity.
    + reflexivity.
    + discriminate.
    + exact Hd.
  - destruct (handler_dispatched_under_normalized_key Double.env Double.ctx []
                (Double.delivery Double.goodDigest) Double.blank "{}"
                Double.goodDigest "orders/create" "shop.example.com"
                "orders/create" (Double.ordersEntry Double.quiet))
      as (_ & _ & _ & Hk & _).
    + apply delivery_complete. discriminate.
    + reflexivity.
    + reflexivity.
    + discriminate.
    + destruct (Hk eq_refl) as [_ Hsame].
      unfold Double.table. rewrite Hsame. reflexivity.
Defined.

(** * Further properties of the registry *)

(** ** The handler table *)

Lemma getTopics_assign topic entry (reg : Registry) :
  getTopics (assign topic entry reg)
  = if bool_decide (topic ∈ getTopics reg) then getTopics reg
    else getTopics reg ++ [topic].
Proof.
  induction reg as [|[k v] r IH]; simpl; [reflexivity|].
  destruct (String.eqb_spec k topic) as [->|Hne]; simpl.
  - rewrite bool_decide_eq_true_2 by (left). reflexivity.
  - rewrite IH. destruct (bool_decide (topic ∈ getTopics r)) eqn:Hin.
    + apply bool_decide_eq_true_1 in Hin.
      rewrite bool_decide_eq_true_2 by (right; exact Hin). reflexivity.
    + apply bool_decide_eq_false_1 in Hin.
      rewrite bool_decide_eq_false_2; [reflexivity|].
      intros H. inversion H; subst; contradiction.
Qed.

Lemma getHandler_None (reg : Registry) topic :
  getHandler topic reg = None <-> topic ∉ getTopics reg.
Proof.
  induction reg as [|[k v] r IH]; simpl.
  - split; [intros _ H; inversion H|reflexivity].
  - destruct (String.eqb_spec k topic) as [->|Hne].
    + split; [discriminate|]. intros H. exfalso. apply H. left.
    + rewrite IH. split.
      * intros H Hin. inversion Hin; subst; contradiction.
      * intros H Hin. apply H. right. exact Hin.
Qed.

Lemma getHandler_elem (reg : Registry) topic entry :
  getHandler topic reg = Some entry -> (topic, entry) ∈ reg.
Proof.
  induction reg as [|[k v] r IH]; simpl; [discriminate|].
  destruct (String.eqb_spec k topic) as [->|Hne].
  - intros H. injection H as ->. left.
  - intros H. right. apply IH. exact H.
Qed.

Lemma elem_getHandler (reg : Registry) topic entry :
  NoDup (getTopics reg) -> (topic, entry) ∈ reg -> getHandler topic reg = Some entry.
Proof.
  induction reg as [|[k v] r IH]; simpl; intros Hnd Hin; [inversion Hin|].
  apply NoDup_cons in Hnd as [Hk Hnd].
  destruct (String.eqb_spec k topic) as [->|Hne].
  - inversion Hin; subst; [reflexivity|].
    exfalso. apply Hk. unfold getTopics. apply list_elem_of_fmap.
    exists (topic, entry). split; [reflexivity|assumption].
  - inversion Hin; subst; [contradiction|]. apply IH; assumption.
Qed.

(** X1. Adding a handler for a topic that has one overrides it: the table
    is the one a single [addHandler] of the later entry gives, so the topic
    keeps its place among the topics and is listed once. *)
Theorem addHandler_overrides topic first second (reg : Registry) :
  addHandler topic second (addHandler topic first reg) = addHandler topic second reg
  /\ getTopics (addHandler topic second (addHandler topic first reg))
     = getTopics (addHandler topic first reg)
  /\ getHandler topic (addHandler topic second (addHandler topic first reg))
     = Some second.
Proof.
  assert (H : forall a b, assign topic b (assign topic a reg) = assign topic b reg).
  { intros a b. induction reg as [|[k v] r IH]; simpl.
    - rewrite String.eqb_refl. reflexivity.
    - destruct (String.eqb_spec k topic) as [->|Hne]; simpl.
      + rewrite String.eqb_refl. reflexivity.
      + rewrite (proj2 (String.eqb_neq _ _) Hne), IH. reflexivity. }
  unfold addHandler. split; [apply H|]. split.
  - rewrite !getTopics_assign.
    destruct (bool_decide (topic ∈ getTopics reg)) eqn:Hin.
    + rewrite Hin. reflexivity.
    + rewrite bool_decide_eq_true_2; [reflexivity|].
      apply elem_of_app. right. left.
  - rewrite getHandler_assign_eq. destruct second; reflexivity.
Qed.

(** X2. For a table whose keys are plain (no string of digits, not
    [__proto__]) and distinct, and a plain topic: after [addHandler] the keys
    are still plain and distinct; a new topic goes to the end of the list
    [getTopics] gives, a known one leaves the list as it is. *)
Theorem addHandler_topics_distinct topic entry (reg : Registry) :
  NoDup (getTopics reg) ->
  Forall (fun key => Spec.plainKey key = true) (getTopics reg) ->
  Spec.plainKey topic = true ->
  NoDup (getTopics (addHandler topic entry reg))
  /\ Forall (fun key => Spec.plainKey key = true) (getTopics (addHandler topic entry reg))
  /\ getTopics (addHandler topic entry reg)
     = (if bool_decide (topic ∈ getTopics reg) then getTopics reg
        else getTopics reg ++ [topic]).
Proof.
  intros Hnd Hplain Htopic. unfold addHandler. rewrite getTopics_assign.
  destruct (bool_decide (topic ∈ getTopics reg)) eqn:Hin;
    [split; [exact Hnd|split; [exact Hplain|reflexivity]]|].
  apply bool_decide_eq_false_1 in Hin. split; [|split; [|reflexivity]].
  - apply NoDup_app. split; [exact Hnd|]. split.
    + intros x Hx Hx'. inversion Hx' as [|? ? ? Hnil]; subst;
        [contradiction|inversion Hnil].
    + apply NoDup_singleton.
  - apply Forall_app. split; [exact Hplain|]. constructor; [exact Htopic|constructor].
Qed.

(** X3. For a table that never was given the key [__proto__] and a topic
    that is not the name of a member of [Object.prototype]: [getHandler]
    answers null exactly when [getTopics] does not list the topic, and an
    entry it answers with is the entry of the table under that topic. *)
Theorem getHandler_null_iff_not_listed (reg : Registry) topic :
  "__proto__" ∉ getTopics reg ->
  Spec.inherited topic = false ->
  (getHandler topic reg = None <-> topic ∉ getTopics reg)
  /\ (forall entry, getHandler topic reg = Some entry -> (topic, entry) ∈ reg).
Proof.
  intros _ _. split; [apply getHandler_None|]. intros entry. apply getHandler_elem.
Qed.

Lemma addHandlers_lookup_gen (handlers : list (string * WebhookRegistryEntry)) topic :
  NoDup handlers.*1 ->
  forall reg : Registry,
    getHandler topic (addHandlers handlers reg)
    = match getHandler topic handlers with
      | Some entry => Some entry
      | None => getHandler topic reg
      end.
Proof.
  unfold addHandlers.
  induction handlers as [|[k e] r IH]; simpl; intros Hnd reg; [reflexivity|].
  apply NoDup_cons in Hnd as [Hk Hnd]. rewrite (IH Hnd).
  destruct (String.eqb_spec k topic) as [->|Hne].
  - assert (Hr : getHandler topic r = None) by (apply getHandler_None; exact Hk).
    rewrite Hr. unfold addHandler. rewrite getHandler_assign_eq.
    destruct e; reflexivity.
  - destruct (getHandler topic r); [reflexivity|].
    unfold addHandler. apply getHandler_assign_ne. congruence.
Qed.

(** X4. [addHandlers] of an object with distinct topics, none of them
    [__proto__]: afterwards every topic of the object has the entry the
    object gives it, and every other topic has the entry it had. *)
Theorem addHandlers_sets_each_topic
    (handlers : list (string * WebhookRegistryEntry)) (reg : Registry) topic :
  NoDup handlers.*1 ->
  "__proto__" ∉ handlers.*1 ->
  (forall entry, (topic, entry) ∈ handlers ->
     getHandler topic (addHandlers handlers reg) = Some entry)
  /\ (topic ∉ handlers.*1 ->
      getHandler topic (addHandlers handlers reg) = getHandler topic reg).
Proof.
  intros Hnd _. split.
  - intros entry Hin. rewrite (addHandlers_lookup_gen _ _ Hnd).
    rewrite (elem_getHandler handlers topic entry Hnd Hin). reflexivity.
  - intros Hout. rewrite (addHandlers_lookup_gen _ _ Hnd).
    rewrite (proj2 (getHandler_None handlers topic) Hout). reflexivity.
Qed.

(** X5. In a table with distinct topics that never was given the key
    [__proto__], [isWebhookPath] is true exactly for the paths of the
    entries [getHandler] can answer with; it is false for every path when
    the table is empty. *)
Theorem isWebhookPath_iff_registered (reg : Registry) p :
  NoDup (getTopics reg) ->
  "__proto__" ∉ getTopics reg ->
  (isWebhookPath p reg = true
   <-> exists topic entry, getHandler topic reg = Some entry /\ path entry = p)
  /\ isWebhookPath p [] = false.
Proof.
  intros Hnd _. split; [|reflexivity]. unfold isWebhookPath. rewrite existsb_exists.
  split.
  - intros ([k v] & Hin & Hp). exists k, v. split.
    + apply elem_getHandler; [exact Hnd|]. apply list_elem_of_In. exact Hin.
    + apply String.eqb_eq. exact Hp.
  - intros (k & v & Hg & Hp). exists (k, v). split.
    + apply list_elem_of_In. apply getHandler_elem. exact Hg.
    + apply String.eqb_eq. exact Hp.
Qed.

(** ** The builders and [isSuccess] *)

Lemma stripPrefix_app p s r : JS.stripPrefix p s = Some r -> s = p +:+ r.
Proof.
  revert s. induction p as [|a p IH]; intros s; simpl.
  - intros H. injection H as ->. reflexivity.
  - destruct s as [|b s]; [discriminate|].
    destruct (Ascii.eqb_spec a b) as [->|Hne]; [|discriminate].
    intros H. rewrite (IH _ H). reflexivity.
Qed.

Lemma occurs_app c a b : JS.occurs c (a +:+ b) = JS.occurs c a || JS.occurs c b.
Proof.
  induction a as [|x a IH]; simpl; [reflexivity|].
  rewrite IH. apply orb_assoc.
Qed.

Lemma replacePrefix_without_colon s :
  JS.occurs ":" s = false -> JS.replacePrefix "pubsub://" s = s.
Proof.
  intros H. unfold JS.replacePrefix.
  destruct (JS.stripPrefix "pubsub://" s) as [r|] eqn:Hs; [|reflexivity].
  apply stripPrefix_app in Hs. rewrite Hs, occurs_app in H.
  discriminate H.
Qed.

(** X6. [buildQuery] throws for one reason only: the method is PubSub and
    the configured version does not support it; the error is then the
    unsupported-client error naming the version. For Http and EventBridge,
    and for a missing method, it returns a document at every version. *)
Theorem buildQuery_throws_only_below_cutoff ctx topic address deliveryMethod webhookId :
  ((exists e, buildQuery ctx topic address deliveryMethod webhookId = Err e)
   <-> deliveryMethod = Some PubSub /\ versionSupportsPubSub ctx = false)
  /\ (forall e, buildQuery ctx topic address deliveryMethod webhookId = Err e ->
        e = UnsupportedClientType
              ("Pub/Sub webhooks are not supported in API version " +:+ dquote
               +:+ API_VERSION ctx +:+ dquote +:+ ".")).
Proof.
  unfold buildQuery, validateDeliveryMethod.
  destruct deliveryMethod as [[]|]; simpl default;
    try (rewrite bool_decide_eq_false_2 by discriminate; simpl;
         split; [split; [intros (e & He); discriminate He
                        |intros (Hm & _); discriminate Hm]
                |intros e He; discriminate He]).
  rewrite bool_decide_eq_true_2 by reflexivity. simpl.
  destruct (versionSupportsPubSub ctx); simpl.
  - split; [split; [intros (e & He); discriminate He|intros (_ & Hv); discriminate Hv]
           |intros e He; discriminate He].
  - split; [split; [intros _; split; reflexivity|intros _; eexists; reflexivity]
           |intros e He; injection He as <-; reflexivity].
Qed.

(** X7. A PubSub address that is not of the form project:topic is not
    refused. With no colon the whole address is the project and the topic is
    the text undefined; the pubsub:// prefix may be left out (unless the
    project is itself called pubsub); whatever follows a second colon is
    dropped. *)
Theorem buildQuery_pubsub_malformed_address ctx topic webhookId project pubSubTopic rest :
  validateDeliveryMethod ctx PubSub = Ok tt ->
  JS.occurs ":" project = false ->
  JS.occurs ":" pubSubTopic = false ->
  let document args :=
    Ok (mutationDocument (Spec.mutationName PubSub (JS.truthyStr webhookId))
          (Spec.identifier topic webhookId) args) in
  buildQuery ctx topic project (Some PubSub) webhookId
  = document (Spec.pubSubArgs project "undefined")
  /\ buildQuery ctx topic ("pubsub://" +:+ project) (Some PubSub) webhookId
     = document (Spec.pubSubArgs project "undefined")
  /\ (project <> "pubsub" ->
      buildQuery ctx topic (project +:+ ":" +:+ pubSubTopic) (Some PubSub) webhookId
      = document (Spec.pubSubArgs project pubSubTopic))
  /\ buildQuery ctx topic
       ("pubsub://" +:+ project +:+ ":" +:+ pubSubTopic +:+ ":" +:+ rest)
       (Some PubSub) webhookId
     = document (Spec.pubSubArgs project pubSubTopic).
Proof.
  intros Hv Hp Ht document. subst document. cbv beta.
  rewrite !(validate_buildQuery ctx _ _ _ _ Hv).
  unfold Spec.addressArgs, Spec.pubSubArgs.
  split; [|split; [|split]].
  - rewrite (replacePrefix_without_colon _ Hp), (split_without_separator _ _ Hp).
    reflexivity.
  - change (JS.replacePrefix "pubsub://" ("pubsub://" +:+ project)) with project.
    rewrite (split_without_separator _ _ Hp). reflexivity.
  - intros Hne.
    assert (Hs : JS.replacePrefix "pubsub://" (project +:+ ":" +:+ pubSubTopic)
                 = project +:+ ":" +:+ pubSubTopic).
    { unfold JS.replacePrefix.
      destruct (JS.stripPrefix "pubsub://" (project +:+ ":" +:+ pubSubTopic))
        as [r|] eqn:Hs; [|reflexivity].
      exfalso. apply stripPrefix_app in Hs.
      assert (Hsplit : JS.split ":" (project +:+ String ":" pubSubTopic)
                       = JS.split ":" ("pubsub" +:+ String ":" ("//" +:+ r))).
      { f_equal. exact Hs. }
      rewrite (split_at_separator _ _ _ Hp) in Hsplit.
      rewrite (split_at_separator ":" "pubsub" _ eq_refl) in Hsplit.
      rewrite (split_without_separator _ _ Ht) in Hsplit.
      injection Hsplit as Hproject _. contradiction. }
    rewrite Hs.
    change (project +:+ ":" +:+ pubSubTopic) with (project +:+ String ":" pubSubTopic).
    rewrite (split_at_separator _ _ _ Hp), (split_without_separator _ _ Ht).
    reflexivity.
  - change (JS.replacePrefix "pubsub://"
              ("pubsub://" +:+ project +:+ ":" +:+ pubSubTopic +:+ ":" +:+ rest))
      with (project +:+ String ":" (pubSubTopic +:+ String ":" rest)).
    rewrite (split_at_separator _ _ _ Hp), (split_at_separator _ _ _ Ht).
    reflexivity.
Qed.

Lemma lookupLast_absent k fields acc :
  k ∉ fields.*1 -> JS.lookupLast k fields acc = acc.
Proof.
  revert acc. induction fields as [|[k' v] r IH]; intros acc Hout; simpl; [reflexivity|].
  destruct (String.eqb_spec k k') as [->|Hne].
  - exfalso. apply Hout. left.
  - apply IH. intros Hin. apply Hout. right. exact Hin.
Qed.

(** X8. [isSuccess] looks under the name of the mutation that [buildQuery]
    puts in the document for the same method and id: an answer that carries
    a subscription payload under that name is a success when the payload is
    truthy, an answer under any other name is not. An answer without a data
    field is not a success; a body that is null is a TypeError. *)
Theorem isSuccess_reads_the_mutation_name method webhookId name payload fields :
  isSuccess (JS.VObj [("data", JS.VObj [(name, JS.VObj [("webhookSubscription", payload)])])])
    method webhookId
  = Some (if String.eqb name (Spec.mutationName method (JS.truthyStr webhookId))
          then JS.truthy payload else false)
  /\ ("data" ∉ fields.*1 -> isSuccess (JS.VObj fields) method webhookId = Some false)
  /\ isSuccess JS.VNull method webhookId = None.
Proof.
  split; [|split; [|reflexivity]].
  - unfold isSuccess.
    destruct method, (JS.truthyStr webhookId);
      match goal with
      | |- context [Spec.mutationName ?m ?b] =>
          let n := eval vm_compute in (Spec.mutationName m b) in
          change (Spec.mutationName m b) with n
      end;
      match goal with
      | |- context [String.eqb name ?e] =>
          destruct (String.eqb_spec name e) as [->|Hne];
          [reflexivity
          |cbn -[String.eqb]; rewrite String.eqb_refl; cbn -[String.eqb];
           match goal with
           | |- context [String.eqb ?x name] =>
               rewrite (proj2 (String.eqb_neq x name) (not_eq_sym Hne))
           end; reflexivity]
      end.
  - intros Hout. unfold isSuccess. simpl JS.prop.
    rewrite (lookupLast_absent _ _ _ Hout). reflexivity.
Qed.

(** ** One registration *)

Section RegisterShape.

Context {Remote : Type} (send : Transport Remote) (ctx : Context).

Lemma register_gate options (w : World Remote) e :
  validateDeliveryMethod ctx (default Http (RegisterOptions.deliveryMethod options))
  = Err e ->
  register send ctx options w = (Err e, w).
Proof. intros Hv. unfold register, bind. rewrite Hv. reflexivity. Qed.



(** When [register] returns after a mutation, the document it sent is the
    one [buildQuery] gives for the topic, the target address, the method and
    the id the check query found, if any. *)
Lemma register_sent_documents options (w : World Remote) :
  let method := default Http (RegisterOptions.deliveryMethod options) in
  let check := checkCall ctx options in
  match register send ctx options w with
  | (Ok m, w') =>
      (exists outcome, m = {[ RegisterOptions.topic options := outcome ]})
      /\ (calls w' = calls w ++ [check]
          \/ exists webhookId data,
               buildQuery ctx (RegisterOptions.topic options)
                 (Spec.targetAddress ctx options) (Some method) webhookId = Ok data
               /\ calls w' = calls w ++ [check; mutationCall options data])
  | (Err _, _) => True
  end.
Proof.
  cbv zeta. unfold register, bind.
  destruct (validateDeliveryMethod ctx
              (default Http (RegisterOptions.deliveryMethod options)))
    as [[]|e] eqn:Hv; simpl lift; [|exact I].
  unfold ret at 1.
  destruct (send (checkCall ctx options) (remote w)) as [[body|e] remote1] eqn:Hs;
    rewrite (client_query_answer _ _ _ _ _ _ _ Hs); [|exact I].
  destruct (WebhookCheck.firstNode body) as [first|]; simpl orTypeError; [|exact I].
  unfold ret at 1. rewrite targetAddress_eq.
  assert (Hmut : forall webhookId,
    match
      (let* data := lift (buildQuery ctx (RegisterOptions.topic options)
                            (Spec.targetAddress ctx options)
                            (Some (default Http (RegisterOptions.deliveryMethod options)))
                            webhookId) in
       let* result := client_query send (RegisterOptions.shop options)
                        (RegisterOptions.accessToken options) data in
       let* ok := orTypeError
                    (isSuccess result
                       (default Http (RegisterOptions.deliveryMethod options))
                       webhookId) in
       ret ({[ RegisterOptions.topic options := {| success := ok; result := result |} ]}
            : gmap string Outcome))
        {| remote := remote1; calls := calls w ++ [checkCall ctx options] |}
    with
    | (Ok m, w') =>
        (exists outcome, m = {[ RegisterOptions.topic options := outcome ]})
        /\ (calls w' = calls w ++ [checkCall ctx options]
            \/ exists webhookId' data,
                 buildQuery ctx (RegisterOptions.topic options)
                   (Spec.targetAddress ctx options)
                   (Some (default Http (RegisterOptions.deliveryMethod options)))
                   webhookId' = Ok data
                 /\ calls w' = calls w ++ [checkCall ctx options; mutationCall options data])
    | (Err _, _) => True
    end).
  { intros webhookId. unfold bind.
    destruct (buildQuery ctx (RegisterOptions.topic options)
                (Spec.targetAddress ctx options)
                (Some (default Http (RegisterOptions.deliveryMethod options)))
                webhookId) as [data|e] eqn:Hdata; simpl lift; [|exact I].
    unfold ret at 1. unfold client_query. simpl remote. simpl calls.
    match goal with
    | |- context [send ?c remote1] => destruct (send c remote1) as [[result|e] remote2]
    end; [|exact I].
    destruct (isSuccess result _ webhookId) as [ok|]; simpl; [|exact I].
    split; [eexists; reflexivity|]. right. exists webhookId, data.
    split; [exact Hdata|]. rewrite <- app_assoc. reflexivity. }
  destruct first as [node|].
  - destruct (bool_decide
                (WebhookCheck.endpointAddress (WebhookCheck.endpoint node)
                 = Some (Spec.targetAddress ctx options))).
    + unfold ret. split; [eexists; reflexivity|]. left. reflexivity.
    + apply Hmut.
  - apply Hmut.
Qed.

(** X10. [register] catches no rejection of the transport. When the check
    query is rejected, [register] rejects with the same reason and sends
    nothing more; when the mutation is rejected, it rejects with that reason
    after the two calls. *)
Theorem register_propagates_rejections options (w : World Remote) :
  let method := default Http (RegisterOptions.deliveryMethod options) in
  let check := checkCall ctx options in
  validateDeliveryMethod ctx method = Ok tt ->
  (forall e remote1,
     send check (remote w) = (Err e, remote1) ->
     register send ctx options w
     = (Err e, {| remote := remote1; calls := calls w ++ [check] |}))
  /\ (forall body remote1 first e remote2,
        let webhookId := node ← first; WebhookCheck.id node in
        let data :=
          mutationDocument (Spec.mutationName method (JS.truthyStr webhookId))
            (Spec.identifier (RegisterOptions.topic options) webhookId)
            (Spec.addressArgs method (Spec.targetAddress ctx options)) in
        send check (remote w) = (Ok body, remote1) ->
        WebhookCheck.firstNode body = Some first ->
        (forall node, first = Some node ->
           WebhookCheck.endpointAddress (WebhookCheck.endpoint node)
           <> Some (Spec.targetAddress ctx options)) ->
        send (mutationCall options data) remote1 = (Err e, remote2) ->
        register send ctx options w
        = (Err e, {| remote := remote2;
                     calls := calls w ++ [check; mutationCall options data] |})).
Proof.
  intros method check Hv. subst method check. split.
  - intros e remote1 Hs. unfold register, bind. rewrite Hv. simpl lift.
    unfold ret at 1. rewrite (client_query_answer _ _ _ _ _ _ _ Hs). reflexivity.
  - intros body remote1 first e remote2 webhookId data Hs Hfirst Haddr Hs2.
    subst webhookId data.
    unfold register, bind. rewrite Hv. simpl lift. unfold ret at 1.
    rewrite (client_query_answer _ _ _ _ _ _ _ Hs).
    rewrite Hfirst. simpl orTypeError. unfold ret at 1.
    rewrite targetAddress_eq.
    destruct first as [node|]; simpl in Hs2.
    + rewrite bool_decide_eq_false_2 by (apply Haddr; reflexivity).
      rewrite (validate_buildQuery ctx _ _ _ _ Hv). simpl lift. unfold ret at 1.
      rewrite (client_query_answer _ _ _ _ {| remote := remote1; calls := _ |} _ _ Hs2).
      simpl. rewrite <- app_assoc. reflexivity.
    + rewrite (validate_buildQuery ctx _ _ _ _ Hv). simpl lift. unfold ret at 1.
      rewrite (client_query_answer _ _ _ _ {| remote := remote1; calls := _ |} _ _ Hs2).
      simpl. rewrite <- app_assoc. reflexivity.
Qed.

(** X11. When the check query reports no subscription for the topic,
    [register] sends exactly one mutation, the create mutation of the
    method, naming the subscription by the topic and carrying the target
    address; for Http that address is the path on the configured host. *)
Theorem register_creates_when_absent options (w : World Remote) body remote1 :
  let method := default Http (RegisterOptions.deliveryMethod options) in
  let create :=
    mutationDocument (Spec.mutationName method false)
      ("topic: " +:+ RegisterOptions.topic options)
      (Spec.addressArgs method (Spec.targetAddress ctx options)) in
  validateDeliveryMethod ctx method = Ok tt ->
  send (checkCall ctx options) (remote w) = (Ok body, remote1) ->
  WebhookCheck.firstNode body = Some None ->
  calls (snd (register send ctx options w))
  = calls w ++ [checkCall ctx options; mutationCall options create]
  /\ (method = Http ->
      Spec.addressArgs method (Spec.targetAddress ctx options)
      = "{callbackUrl: " +:+ dquote
        +:+ ("https://" +:+ HOST_NAME ctx +:+ RegisterOptions.path options)
        +:+ dquote +:+ "}").
Proof.
  intros method create Hv Hs Hfirst. subst method create. split.
  - unfold register, bind. rewrite Hv. simpl lift. unfold ret at 1.
    rewrite (client_query_answer _ _ _ _ _ _ _ Hs).
    rewrite Hfirst. simpl orTypeError. unfold ret at 1. cbv iota beta.
    rewrite targetAddress_eq, (validate_buildQuery ctx _ _ _ _ Hv).
    simpl lift. unfold ret at 1. unfold client_query. simpl remote. simpl calls.
    match goal with
    | |- context [send ?c remote1] => destruct (send c remote1) as [[result|e] remote2]
    end; simpl.
    + destruct (isSuccess result _ None); simpl; rewrite <- app_assoc; reflexivity.
    + rewrite <- app_assoc; reflexivity.
  - intros Hm. unfold Spec.targetAddress. rewrite Hm. reflexivity.
Qed.

End RegisterShape.

(** ** Registering every topic *)

Section RegisterAllTrace.

Context {Remote : Type} (send : Transport Remote) (ctx : Context).

(** The calls [registerAll] may make for one topic of the table. *)
Lemma registerAll_loop_trace reg accessToken shop method topics :
  Forall (fun t => is_Some (getHandler t reg)) topics ->
  forall acc (w w' : World Remote) m,
    registerAll_loop send ctx reg accessToken shop method topics acc w = (Ok m, w') ->
    (forall t, is_Some (m !! t) -> is_Some (acc !! t) \/ t ∈ topics)
    /\ exists groups,
         calls w' = calls w ++ concat groups
         /\ Forall2 (fun t g =>
               exists h, getHandler t reg = Some h
                 /\ let o := webhookOf accessToken shop method t h in
                    g = [checkCall ctx o]
                    \/ exists webhookId data,
                         buildQuery ctx t (Spec.targetAddress ctx o) (Some method)
                           webhookId = Ok data
                         /\ g = [checkCall ctx o; mutationCall o data])
              topics groups.
Proof.
  induction topics as [|topic rest IH]; intros Hall acc w w' m Hrun.
  - simpl in Hrun. unfold ret in Hrun. injection Hrun as <- <-. split.
    + intros t Ht. left. exact Ht.
    + exists []. split; [simpl; rewrite app_nil_r; reflexivity|constructor].
  - apply Forall_cons in Hall as [[h Hh] Hall]. simpl in Hrun. rewrite Hh in Hrun.
    unfold bind at 1 in Hrun. fold (webhookOf accessToken shop method topic h) in Hrun.
    pose proof (register_sent_documents send ctx
                  (webhookOf accessToken shop method topic h) w) as Hshape.
    cbv zeta in Hshape.
    destruct (register send ctx (webhookOf accessToken shop method topic h) w)
      as [[m1|e] w1]; [|discriminate Hrun].
    destruct Hshape as [[outcome ->] Hcalls].
    destruct (IH Hall _ _ _ _ Hrun) as [Hkeys (groups & Hgroups & Hshape)].
    split.
    + intros t Ht. destruct (Hkeys t Ht) as [Hu|Hin]; [|right; right; exact Hin].
      apply lookup_union_is_Some in Hu as [Hone|Hacc]; [|left; exact Hacc].
      right. simpl in Hone.
      destruct (decide (topic = t)) as [->|Hne]; [left|].
      rewrite lookup_singleton_ne in Hone by exact Hne.
      destruct Hone as [? Hx]. discriminate Hx.
    + destruct Hcalls as [Hc|(webhookId & data & Hdata & Hc)].
      * exists ([checkCall ctx (webhookOf accessToken shop method topic h)] :: groups).
        split; [rewrite Hgroups, Hc; simpl; rewrite <- app_assoc; reflexivity|].
        constructor; [|exact Hshape]. exists h. split; [exact Hh|]. left. reflexivity.
      * exists ([checkCall ctx (webhookOf accessToken shop method topic h);
                 mutationCall (webhookOf accessToken shop method topic h) data]
                :: groups).
        split; [rewrite Hgroups, Hc; simpl; rewrite <- app_assoc; reflexivity|].
        constructor; [|exact Hshape]. exists h. split; [exact Hh|].
        right. exists webhookId, data. split; [exact Hdata|reflexivity].
Qed.

Lemma topics_have_handlers (reg : Registry) :
  Forall (fun t => is_Some (getHandler t reg)) (getTopics reg).
Proof. apply Forall_forall. intros t Ht. apply getTopics_getHandler. exact Ht. Qed.

(** X12. When [registerAll] returns, the topics of the mapping are exactly
    the topics of the handler table: one outcome for each, none for any
    other. *)
Theorem registerAll_outcomes_are_the_topics reg options (w w' : World Remote) m :
  registerAll send ctx reg options w = (Ok m, w') ->
  dom m = list_to_set (getTopics reg).
Proof.
  intros Hrun. unfold registerAll in Hrun.
  pose proof (registerAll_loop_spec send ctx reg
                (ShortenedRegisterOptions.accessToken options)
                (ShortenedRegisterOptions.shop options)
                (default Http (ShortenedRegisterOptions.deliveryMethod options))
                (getTopics reg) ∅ w) as Hall.
  rewrite Hrun in Hall. destruct Hall as [Hall _].
  destruct (registerAll_loop_trace _ _ _ _ _ (topics_have_handlers reg) _ _ _ _ Hrun)
    as [Hkeys _].
  apply set_eq. intros t. rewrite elem_of_dom, elem_of_list_to_set. split.
  - intros Ht. destruct (Hkeys t Ht) as [Hempty|Hin]; [|exact Hin].
    rewrite lookup_empty in Hempty. destruct Hempty as [? Hx]. discriminate Hx.
  - intros Hin. apply Hall; [exact Hin|]. apply getTopics_getHandler. exact Hin.
Qed.

(** X13. When [registerAll] returns, what it has sent is, topic by topic in
    the order of the table, the check query of the topic to the shop with
    the access token of the options, followed or not by one mutation: the
    document [buildQuery] gives for the topic, the method of the options and
    the target address made from the path of the topic's handler (for Http,
    the path on the configured host). No topic is sent for twice, and none
    before an earlier topic is done. *)
Theorem registerAll_sends_in_table_order reg options (w w' : World Remote) m :
  let accessToken := ShortenedRegisterOptions.accessToken options in
  let shop := ShortenedRegisterOptions.shop options in
  let method := default Http (ShortenedRegisterOptions.deliveryMethod options) in
  let address h := match method with
                   | Http => "https://" +:+ HOST_NAME ctx +:+ path h
                   | _ => path h
                   end in
  let call t data := {| call_shop := shop; call_accessToken := accessToken;
                        call_data := data |} in
  registerAll send ctx reg options w = (Ok m, w') ->
  exists groups,
    calls w' = calls w ++ concat groups
    /\ Forall2 (fun t g =>
          exists h, getHandler t reg = Some h
            /\ (g = [call t (buildCheckQuery ctx t)]
                \/ exists webhookId data,
                     buildQuery ctx t (address h) (Some method) webhookId = Ok data
                     /\ g = [call t (buildCheckQuery ctx t); call t data]))
         (getTopics reg) groups.
Proof.
  intros accessToken shop method address call Hrun. unfold registerAll in Hrun.
  destruct (registerAll_loop_trace _ _ _ _ _ (topics_have_handlers reg) _ _ _ _ Hrun)
    as [_ (groups & Hcalls & Hshape)].
  exists groups. split; [exact Hcalls|].
  eapply Forall2_impl; [exact Hshape|].
  intros t g (h & Hh & Hg). exists h. split; [exact Hh|].
  cbv zeta in Hg. exact Hg.
Qed.

(** X14. [registerAll] with method PubSub below the cutoff version sends
    nothing. With a topic in the table it rejects with the unsupported-client
    error; with an empty table it returns the empty mapping, the version is
    never looked at. *)
Theorem registerAll_pubsub_below_cutoff reg options (w : World Remote) :
  ShortenedRegisterOptions.deliveryMethod options = Some PubSub ->
  versionCompatible ApiVersion.July21 (API_VERSION ctx) = false ->
  registerAll send ctx reg options w
  = (match reg with
     | [] => Ok ∅
     | _ :: _ =>
         Err (UnsupportedClientType
                ("Pub/Sub webhooks are not supported in API version " +:+ dquote
                 +:+ API_VERSION ctx +:+ dquote +:+ "."))
     end, w).
Proof.
  intros Hm Hv. unfold registerAll. rewrite Hm. simpl default.
  destruct reg as [|[k v] r]; [reflexivity|].
  simpl getTopics. simpl registerAll_loop. rewrite String.eqb_refl.
  unfold bind. rewrite (register_gate send ctx _ w
    (UnsupportedClientType
       ("Pub/Sub webhooks are not supported in API version " +:+ dquote
        +:+ API_VERSION ctx +:+ dquote +:+ "."))); [reflexivity|].
  simpl. unfold validateDeliveryMethod, versionSupportsPubSub. rewrite Hv. reflexivity.
Qed.

End RegisterAllTrace.

(** ** More on inbound processing *)

Section ProcessingMore.

Context {Headers : Type} (env : Collaborators Headers) (ctx : Context).

(** The three ways through [process]. *)
Lemma process_cases reg (request : Request.t Headers) resp :
  (JS.truthyStr (Request.body request) = false
   /\ process env ctx reg request resp
      = {| response := setStatus resp StatusCode.BadRequest;
           thrown := Some (InvalidWebhookError
                             "No body was received when processing webhook");
           dispatched := [] |})
  \/ (JS.truthyStr (Request.body request) = true
      /\ exists message,
           process env ctx reg request resp
           = {| response := setStatus resp StatusCode.BadRequest;
                thrown := Some (InvalidWebhookError message);
                dispatched := [] |})
  \/ (exists body h t d,
        Spec.complete env request body h t d
        /\ Spec.signed env ctx body h = false
        /\ process env ctx reg request resp
           = {| response := {| Response.statusCode := Some StatusCode.Forbidden;
                               Response.headers := Some [] |};
                thrown := Some (InvalidWebhookError
                                  ("Could not validate request for topic " +:+ t));
                dispatched := [] |})
  \/ (exists body h t d,
        Spec.complete env request body h t d
        /\ Spec.signed env ctx body h = true
        /\ getHandler (graphqlTopicOf t) reg = None
        /\ process env ctx reg request resp
           = {| response := {| Response.statusCode := Some StatusCode.Forbidden;
                               Response.headers := Some [] |};
                thrown := Some (InvalidWebhookError
                                  ("No webhook is registered for topic " +:+ t));
                dispatched := [] |})
  \/ (exists body h t d entry,
        Spec.complete env request body h t d
        /\ Spec.signed env ctx body h = true
        /\ getHandler (graphqlTopicOf t) reg = Some entry
        /\ let call := {| dispatch_entry := entry;
                          dispatch_topic := graphqlTopicOf t;
                          dispatch_domain := d;
                          dispatch_body := body |} in
           process env ctx reg request resp
           = match webhookHandler entry (graphqlTopicOf t) d body with
             | Ok _ =>
                 {| response := {| Response.statusCode := Some StatusCode.Ok;
                                   Response.headers := Some [] |};
                    thrown := None;
                    dispatched := [call] |}
             | Err error =>
                 {| response := {| Response.statusCode :=
                                     Some StatusCode.InternalServerError;
                                   Response.headers := Some [] |};
                    thrown := if truthyThrown error then Some error else None;
                    dispatched := [call] |}
             end).
Proof.
  destruct (JS.truthyStr (Request.body request)) eqn:Hb.
  2:{ left. split; [reflexivity|]. unfold process. rewrite Hb. reflexivity. }
  right.
  destruct (extractHeaders env (Request.headers request)) as [hm tp dm] eqn:Hx.
  destruct (JS.truthyStr hm && JS.truthyStr tp && JS.truthyStr dm) eqn:Hall.
  2:{ left. split; [reflexivity|]. eexists.
      apply (process_header_missing env ctx reg request resp Hb).
      cbv zeta. rewrite Hx. exact Hall. }
  right.
  apply andb_true_iff in Hall as [Hall Hd]. apply andb_true_iff in Hall as [Hh Ht].
  apply truthyStr_true in Hb as (body & Hbody & Hbne).
  apply truthyStr_true in Hh as (h & -> & Hhne).
  apply truthyStr_true in Ht as (t & -> & Htne).
  apply truthyStr_true in Hd as (d & -> & Hdne).
  assert (Hc : Spec.complete env request body h t d).
  { repeat split; assumption. }
  pose proof (process_complete env ctx reg request resp body h t d Hc) as Hp.
  cbv zeta in Hp.
  destruct (Spec.signed env ctx body h) eqn:Hsig.
  2:{ left. exists body, h, t, d. split; [exact Hc|]. split; [exact Hsig|exact Hp]. }
  right.
  destruct (getHandler (graphqlTopicOf t) reg) as [entry|] eqn:Hg.
  2:{ left. exists body, h, t, d. split; [exact Hc|]. split; [exact Hsig|].
      split; [exact Hg|exact Hp]. }
  right. exists body, h, t, d, entry.
  split; [exact Hc|]. split; [exact Hsig|]. split; [exact Hg|].
  cbv zeta. rewrite Hp.
  destruct (webhookHandler entry (graphqlTopicOf t) d body); reflexivity.
Qed.

(** X15. [process] calls a handler only for a request that has a body, the
    three headers and a digest that matches; it then calls one handler, once:
    the entry under the normalized topic, with that topic, the shop domain
    and the body. In particular the status is 200 only after such a call. *)
Theorem process_dispatches_only_signed_requests reg (request : Request.t Headers) resp :
  let r := process env ctx reg request resp in
  (dispatched r = []
   \/ exists body h t d entry,
        Spec.complete env request body h t d
        /\ safeCompare env (createSHA256HMAC env (API_SECRET_KEY ctx) body) h = true
        /\ getHandler (graphqlTopicOf t) reg = Some entry
        /\ dispatched r = [{| dispatch_entry := entry;
                              dispatch_topic := graphqlTopicOf t;
                              dispatch_domain := d;
                              dispatch_body := body |}])
  /\ (Response.statusCode (response r) = Some 200%Z -> dispatched r <> []).
Proof.
  cbv zeta.
  destruct (process_cases reg request resp)
    as [[_ Hp]|[[_ [msg Hp]]|[(b & h & t & d & _ & _ & Hp)
       |[(b & h & t & d & _ & _ & _ & Hp)|(b & h & t & d & entry & Hc & Hs & Hg & Hp)]]]];
    cbv zeta in Hp; rewrite Hp.
  - split; [left; reflexivity|discriminate].
  - split; [left; reflexivity|discriminate].
  - split; [left; reflexivity|discriminate].
  - split; [left; reflexivity|discriminate].
  - split.
    + right. exists b, h, t, d, entry. split; [exact Hc|]. split; [exact Hs|].
      split; [exact Hg|].
      destruct (webhookHandler entry (graphqlTopicOf t) d b); reflexivity.
    + destruct (webhookHandler entry (graphqlTopicOf t) d b); simpl; discriminate.
Qed.

(** X16. A handler that rejects with a falsy reason (undefined, null, an
    empty string, zero, false) leaves status 500 on the response, but
    [process] itself then returns without throwing. *)
Theorem process_drops_falsy_rejection reg (request : Request.t Headers) resp
    body h t d entry reason :
  Spec.complete env request body h t d ->
  safeCompare env (createSHA256HMAC env (API_SECRET_KEY ctx) body) h = true ->
  getHandler (graphqlTopicOf t) reg = Some entry ->
  webhookHandler entry (graphqlTopicOf t) d body = Err (Rejection reason) ->
  JS.truthy reason = false ->
  let r := process env ctx reg request resp in
  Response.statusCode (response r) = Some 500%Z
  /\ thrown r = None
  /\ length (dispatched r) = 1%nat.
Proof.
  intros Hc Hs Hg Hr Hf. cbv zeta.
  rewrite (process_complete env ctx reg request resp body h t d Hc). cbv zeta.
  unfold Spec.signed. rewrite Hs, Hg, Hr. simpl. rewrite Hf. repeat split.
Qed.

(** X17. What [process] does to the response object: on the two 400 paths
    only the status is set and the headers of the response are left as they
    were; on every other path the status is 403, 500 or 200 and the headers
    are replaced by the empty mapping. *)
Theorem process_response_headers reg (request : Request.t Headers) resp :
  let r := process env ctx reg request resp in
  (Response.statusCode (response r) = Some 400%Z
   /\ Response.headers (response r) = Response.headers resp)
  \/ ((Response.statusCode (response r) = Some 403%Z
       \/ Response.statusCode (response r) = Some 500%Z
       \/ Response.statusCode (response r) = Some 200%Z)
      /\ Response.headers (response r) = Some []).
Proof.
  cbv zeta.
  destruct (process_cases reg request resp)
    as [[_ Hp]|[[_ [msg Hp]]|[(b & h & t & d & _ & _ & Hp)
       |[(b & h & t & d & _ & _ & _ & Hp)|(b & h & t & d & entry & _ & _ & _ & Hp)]]]];
    cbv zeta in Hp; rewrite Hp.
  - left. split; reflexivity.
  - left. split; reflexivity.
  - right. split; [left; reflexivity|reflexivity].
  - right. split; [left; reflexivity|reflexivity].
  - right. destruct (webhookHandler entry (graphqlTopicOf t) d b); simpl.
    + split; [right; right; reflexivity|reflexivity].
    + split; [right; left; reflexivity|reflexivity].
Qed.

Lemma process_ext reg (q1 q2 : Request.t Headers) resp :
  Request.body q1 = Request.body q2 ->
  extractHeaders env (Request.headers q1) = extractHeaders env (Request.headers q2) ->
  process env ctx reg q1 resp = process env ctx reg q2 resp.
Proof. intros Hb Hx. unfold process. rewrite Hb, Hx. reflexivity. Qed.

(** X18. Header names are matched without regard to case: a request whose
    header names are rewritten by a function that only changes case is
    processed exactly like the original. *)
Theorem process_header_names_ignore_case reg (q1 q2 : Request.t Headers) resp
    (f : string -> string) :
  (forall name, JS.toLowerCase (f name) = JS.toLowerCase name) ->
  Request.body q2 = Request.body q1 ->
  flatHeaders env (Request.headers q2)
  = map (fun hv => (f (fst hv), snd hv)) (flatHeaders env (Request.headers q1)) ->
  process env ctx reg q2 resp = process env ctx reg q1 resp.
Proof.
  intros Hf Hb Hh. apply process_ext; [exact Hb|].
  unfold extractHeaders. rewrite Hh. clear Hh.
  generalize {| hmac := None; topic := None; domain := None |}.
  induction (flatHeaders env (Request.headers q1)) as [|[n v] l IH]; intros acc;
    [reflexivity|].
  cbn [fold_left map fst snd].
  assert (E : extractStep env acc (f n, v) = extractStep env acc (n, v)).
  { unfold extractStep. rewrite Hf. reflexivity. }
  rewrite E. apply IH.
Qed.

(** X19. A header that is none of the three required ones has no effect,
    wherever it stands among the headers. *)
Theorem process_ignores_other_headers reg (q1 q2 : Request.t Headers) resp
    before after name value :
  JS.toLowerCase name <> JS.toLowerCase (Hmac env) ->
  JS.toLowerCase name <> JS.toLowerCase (Topic env) ->
  JS.toLowerCase name <> JS.toLowerCase (Domain env) ->
  Request.body q2 = Request.body q1 ->
  flatHeaders env (Request.headers q1) = before ++ after ->
  flatHeaders env (Request.headers q2) = before ++ (name, value) :: after ->
  process env ctx reg q2 resp = process env ctx reg q1 resp.
Proof.
  intros Hh Ht Hd Hb H1 H2. apply process_ext; [exact Hb|].
  unfold extractHeaders. rewrite H1, H2, !fold_left_app. simpl. f_equal.
  unfold extractStep.
  rewrite (proj2 (String.eqb_neq _ _) Hh), (proj2 (String.eqb_neq _ _) Ht),
    (proj2 (String.eqb_neq _ _) Hd).
  reflexivity.
Qed.

(** X20. With three distinct header names, [process] depends on the headers
    only through the value each of the three names has last: two requests
    with the same body that agree on these are processed alike. *)
Theorem process_uses_last_header_value reg (q1 q2 : Request.t Headers) resp :
  Spec.distinctNames env ->
  Request.body q1 = Request.body q2 ->
  (forall name, name ∈ [Hmac env; Topic env; Domain env] ->
     Spec.lookupHeader name (flatHeaders env (Request.headers q1))
     = Spec.lookupHeader name (flatHeaders env (Request.headers q2))) ->
  process env ctx reg q1 resp = process env ctx reg q2 resp.
Proof.
  intros Hd Hb Hl. apply process_ext; [exact Hb|].
  unfold extractHeaders. rewrite !(extract_lookup env _ Hd).
  rewrite (Hl (Hmac env)), (Hl (Topic env)), (Hl (Domain env)); [reflexivity| | |].
  - right. right. left.
  - right. left.
  - left.
Qed.

End ProcessingMore.

(** ** The key [process] looks up *)

Lemma unchanged_char (c : ascii) :
  JS.is_lower c = false -> Ascii.eqb c "/" = false ->
  (if Ascii.eqb (JS.upper_char c) "/" then "_"%char else JS.upper_char c) = c.
Proof.
  destruct c as [[] [] [] [] [] [] [] []]; vm_compute; intros H1 H2;
    first [discriminate H1|discriminate H2|reflexivity].
Qed.

Lemma normalized_unchanged key : Spec.normalized key = true -> graphqlTopicOf key = key.
Proof.
  unfold Spec.normalized, graphqlTopicOf, JS.replaceAll, JS.toUpperCase.
  intros H. apply andb_true_iff in H as [Hs Hl]. apply negb_true_iff in Hs.
  induction key as [|c r IH]; [reflexivity|].
  simpl in Hs, Hl |- *.
  apply orb_false_iff in Hs as [Hc Hs]. apply andb_true_iff in Hl as [Hlc Hl].
  apply negb_true_iff in Hlc.
  rewrite (unchanged_char c Hlc Hc), (IH Hs Hl). reflexivity.
Qed.

(** X21. On ASCII strings, the key [process] computes from a topic is the
    topic with every small letter turned into its capital and every slash
    into an underscore; the strings this leaves unchanged are exactly those
    with no slash and no lower-case letter, and computing the key twice is
    computing it once. So a handler added under such a key is found for a
    topic header that spells the key itself, or spells it in lower case with
    slashes for underscores. *)
Theorem graphqlTopicOf_fixed_points key t :
  JS.isAscii key = true ->
  JS.isAscii t = true ->
  graphqlTopicOf t = Spec.normalizedTopic t
  /\ JS.isAscii (graphqlTopicOf t) = true
  /\ (Spec.normalized key = true <-> Spec.normalizedTopic key = key)
  /\ Spec.normalizedTopic (Spec.normalizedTopic t) = Spec.normalizedTopic t.
Proof.
  intros _ Ht. split; [apply graphqlTopicOf_normalizedTopic|].
  rewrite <- !graphqlTopicOf_normalizedTopic. split; [|split].
  - unfold graphqlTopicOf, JS.replaceAll, JS.toUpperCase.
    induction t as [|c r IH]; [reflexivity|].
    simpl in Ht |- *. apply andb_true_iff in Ht as [Hc Hr].
    rewrite (IH Hr), andb_true_r.
    destruct c as [[] [] [] [] [] [] [] []]; vm_compute in Hc |- *;
      first [reflexivity|discriminate Hc].
  - split; [apply normalized_unchanged|].
    intros H. rewrite <- H. apply graphqlTopicOf_normalized.
  - apply normalized_unchanged. apply graphqlTopicOf_normalized.
Qed.

(** X21 for the key ORDERS_CREATE and the topic orders/create. *)
Lemma graphqlTopicOf_fixed_points_witness :
  graphqlTopicOf "orders/create" = "ORDERS_CREATE"
  /\ Spec.normalizedTopic "ORDERS_CREATE" = "ORDERS_CREATE".
Proof.
  destruct (graphqlTopicOf_fixed_points "ORDERS_CREATE" "orders/create"
              eq_refl eq_refl) as (Heq & _ & Hfix & _).
  split; [rewrite Heq; reflexivity|]. apply Hfix. reflexivity.
Defined.

(** ** The extra properties at concrete inputs *)

Lemma threeTopics_distinct : NoDup (getTopics Double.threeTopics).
Proof.
  change (NoDup ["ORDERS_CREATE"; "PRODUCTS_UPDATE"; "APP_UNINSTALLED"]).
  apply (bool_decide_unpack _). vm_compute. exact I.
Qed.

Lemma threeTopics_plain :
  Forall (fun key => Spec.plainKey key = true) (getTopics Double.threeTopics).
Proof. repeat constructor. Qed.

Lemma threeTopics_own : "__proto__" ∉ getTopics Double.threeTopics.
Proof. apply (bool_decide_unpack _). vm_compute. exact I. Qed.

(** X2 for a fourth topic added to a table of three. *)
Lemma addHandler_topics_distinct_witness :
  NoDup (getTopics Double.threeTopics)
  /\ getTopics (addHandler "CARTS_UPDATE" (Double.ordersEntry Double.quiet)
                  Double.threeTopics)
     = ["ORDERS_CREATE"; "PRODUCTS_UPDATE"; "APP_UNINSTALLED"; "CARTS_UPDATE"].
Proof.
  split; [exact threeTopics_distinct|].
  destruct (addHandler_topics_distinct "CARTS_UPDATE" (Double.ordersEntry Double.quiet)
              Double.threeTopics threeTopics_distinct threeTopics_plain eq_refl)
    as (_ & _ & H).
  rewrite H. reflexivity.
Defined.

(** X3 for a topic the table of three does not list. *)
Lemma getHandler_null_iff_not_listed_witness :
  getHandler "CARTS_UPDATE" Double.threeTopics = None.
Proof.
  destruct (getHandler_null_iff_not_listed Double.threeTopics "CARTS_UPDATE"
              threeTopics_own eq_refl) as [[_ H] _].
  apply H. apply (bool_decide_unpack _). vm_compute. exact I.
Defined.

Lemma threeHandlers_distinct :
  NoDup [("ORDERS_CREATE", Double.ordersEntry Double.quiet);
         ("PRODUCTS_UPDATE", Double.ordersEntry Double.failing)].*1.
Proof. apply (bool_decide_unpack _). vm_compute. exact I. Qed.

Lemma threeHandlers_own :
  "__proto__" ∉ [("ORDERS_CREATE", Double.ordersEntry Double.quiet);
                 ("PRODUCTS_UPDATE", Double.ordersEntry Double.failing)].*1.
Proof. apply (bool_decide_unpack _). vm_compute. exact I. Qed.

(** X4 for an object with two topics, one of them already in the table. *)
Lemma addHandlers_sets_each_topic_witness :
  let handlers := [("ORDERS_CREATE", Double.ordersEntry Double.quiet);
                   ("PRODUCTS_UPDATE", Double.ordersEntry Double.failing)] in
  getHandler "PRODUCTS_UPDATE" (addHandlers handlers Double.threeTopics)
  = Some (Double.ordersEntry Double.failing).
Proof.
  cbv zeta.
  destruct (addHandlers_sets_each_topic
              [("ORDERS_CREATE", Double.ordersEntry Double.quiet);
               ("PRODUCTS_UPDATE", Double.ordersEntry Double.failing)]
              Double.threeTopics "PRODUCTS_UPDATE" threeHandlers_distinct
              threeHandlers_own) as [H _].
  apply H. right. left.
Defined.

(** X5 for the path of an entry of the three-topic table, and one of none. *)
Lemma isWebhookPath_iff_registered_witness :
  isWebhookPath "/webhooks/products" Double.threeTopics = true
  /\ isWebhookPath "/checkout" Double.threeTopics = false.
Proof.
  split.
  - destruct (isWebhookPath_iff_registered Double.threeTopics "/webhooks/products"
                threeTopics_distinct threeTopics_own) as [[_ H] _].
    apply H. exists "PRODUCTS_UPDATE". eexists. split; reflexivity.
  - reflexivity.
Defined.

(** X7 for the project my-project. *)
Lemma buildQuery_pubsub_malformed_address_witness :
  buildQuery Double.ctx "ORDERS_CREATE" "pubsub://my-project" (Some PubSub) None
  = Ok (mutationDocument "pubSubWebhookSubscriptionCreate" "topic: ORDERS_CREATE"
          (Spec.pubSubArgs "my-project" "undefined"))
  /\ buildQuery Double.ctx "ORDERS_CREATE" "pubsub://my-project:my-topic:more"
       (Some PubSub) None
     = Ok (mutationDocument "pubSubWebhookSubscriptionCreate" "topic: ORDERS_CREATE"
             (Spec.pubSubArgs "my-project" "my-topic")).
Proof.
  destruct (buildQuery_pubsub_malformed_address Double.ctx "ORDERS_CREATE" None
              "my-project" "my-topic" "more" eq_refl eq_refl eq_refl)
    as (_ & H2 & _ & H4).
  split; [exact H2|exact H4].
Defined.

(** X10 for a transport that rejects the check query. *)
Lemma register_propagates_rejections_witness :
  let o := Double.options Http "/webhooks" in
  register (Double.rejecting (buildCheckQuery Double.ctx "ORDERS_CREATE"))
    Double.ctx o (Double.start tt)
  = (Err (Rejection (JS.VStr "network error")),
     {| remote := tt; calls := [checkCall Double.ctx o] |}).
Proof.
  cbv zeta.
  destruct (register_propagates_rejections
              (Double.rejecting (buildCheckQuery Double.ctx "ORDERS_CREATE"))
              Double.ctx (Double.options Http "/webhooks") (Double.start tt) eq_refl)
    as [H _].
  apply H. reflexivity.
Defined.

(** X11 for an Http registration with a remote side that holds nothing. *)
Lemma register_creates_when_absent_witness :
  let o := Double.options Http "/webhooks" in
  calls (snd (register Double.willing Double.ctx o (Double.start tt)))
  = [ checkCall Double.ctx o;
      mutationCall o
        (mutationDocument "webhookSubscriptionCreate" "topic: ORDERS_CREATE"
           ("{callbackUrl: " +:+ dquote +:+ "https://app.example.com/webhooks"
            +:+ dquote +:+ "}")) ].
Proof.
  cbv zeta.
  destruct (register_creates_when_absent Double.willing Double.ctx
              (Double.options Http "/webhooks") (Double.start tt)
              (Double.checkAnswer None) tt eq_refl eq_refl eq_refl) as [H _].
  exact H.
Defined.

(** X12 for the table of three topics and a transport that rejects nothing. *)
Lemma registerAll_outcomes_are_the_topics_witness :
  exists m w',
    registerAll Double.willing Double.ctx Double.threeTopics Double.shortOptions
      (Double.start tt) = (Ok m, w')
    /\ dom m = list_to_set ["ORDERS_CREATE"; "PRODUCTS_UPDATE"; "APP_UNINSTALLED"].
Proof.
  destruct (registerAll Double.willing Double.ctx Double.threeTopics
              Double.shortOptions (Double.start tt)) as [[m|e] w'] eqn:Hrun.
  - exists m, w'. split; [reflexivity|].
    exact (registerAll_outcomes_are_the_topics Double.willing Double.ctx
             Double.threeTopics Double.shortOptions (Double.start tt) w' m Hrun).
  - exfalso. vm_compute in Hrun. discriminate Hrun.
Defined.

(** X13 for the same run: six calls, two for each topic in turn, each
    create carrying the path of the topic's handler on the configured host. *)
Lemma registerAll_sends_in_table_order_witness :
  exists m w' groups,
    registerAll Double.willing Double.ctx Double.threeTopics Double.shortOptions
      (Double.start tt) = (Ok m, w')
    /\ calls w' = [] ++ concat groups
    /\ length groups = 3%nat
    /\ map call_data (calls w')
       = [ buildCheckQuery Double.ctx "ORDERS_CREATE";
           Double.document (buildQuery Double.ctx "ORDERS_CREATE"
                              "https://app.example.com/webhooks/orders" (Some Http) None);
           buildCheckQuery Double.ctx "PRODUCTS_UPDATE";
           Double.document (buildQuery Double.ctx "PRODUCTS_UPDATE"
                              "https://app.example.com/webhooks/products" (Some Http) None);
           buildCheckQuery Double.ctx "APP_UNINSTALLED";
           Double.document (buildQuery Double.ctx "APP_UNINSTALLED"
                              "https://app.example.com/webhooks/app" (Some Http) None) ].
Proof.
  assert (Hsent : map call_data
                    (calls (snd (registerAll Double.willing Double.ctx
                                   Double.threeTopics Double.shortOptions
                                   (Double.start tt))))
                  = [ buildCheckQuery Double.ctx "ORDERS_CREATE";
                      Double.document (buildQuery Double.ctx "ORDERS_CREATE"
                        "https://app.example.com/webhooks/orders" (Some Http) None);
                      buildCheckQuery Double.ctx "PRODUCTS_UPDATE";
                      Double.document (buildQuery Double.ctx "PRODUCTS_UPDATE"
                        "https://app.example.com/webhooks/products" (Some Http) None);
                      buildCheckQuery Double.ctx "APP_UNINSTALLED";
                      Double.document (buildQuery Double.ctx "APP_UNINSTALLED"
                        "https://app.example.com/webhooks/app" (Some Http) None) ]).
  { vm_compute. reflexivity. }
  destruct (registerAll Double.willing Double.ctx Double.threeTopics
              Double.shortOptions (Double.start tt)) as [[m|e] w'] eqn:Hrun.
  - destruct (registerAll_sends_in_table_order Double.willing Double.ctx
                Double.threeTopics Double.shortOptions (Double.start tt) w' m Hrun)
      as (groups & Hcalls & Hshape).
    exists m, w', groups. split; [reflexivity|]. split; [exact Hcalls|].
    split; [|exact Hsent].
    apply Forall2_length in Hshape. rewrite <- Hshape. reflexivity.
  - exfalso. vm_compute in Hrun. discriminate Hrun.
Defined.

(** X14 for the table of three topics and for the empty table. *)
Lemma registerAll_pubsub_below_cutoff_witness :
  fst (registerAll Double.willing Double.oldCtx Double.threeTopics
         Double.pubSubOptions (Double.start tt))
  = Err (UnsupportedClientType
           ("Pub/Sub webhooks are not supported in API version " +:+ dquote
            +:+ "2021-04" +:+ dquote +:+ "."))
  /\ registerAll Double.willing Double.oldCtx [] Double.pubSubOptions (Double.start tt)
     = (Ok ∅, Double.start tt).
Proof.
  split.
  - rewrite (registerAll_pubsub_below_cutoff Double.willing Double.oldCtx
               Double.threeTopics Double.pubSubOptions (Double.start tt)
               eq_refl eq_refl).
    reflexivity.
  - exact (registerAll_pubsub_below_cutoff Double.willing Double.oldCtx []
             Double.pubSubOptions (Double.start tt) eq_refl eq_refl).
Defined.

(** X16 for a handler that rejects with undefined. *)
Lemma process_drops_falsy_rejection_witness :
  let r := process Double.env Double.ctx (Double.table "ORDERS_CREATE" Double.silent)
             (Double.delivery Double.goodDigest) Double.blank in
  Response.statusCode (response r) = Some 500%Z
  /\ thrown r = None
  /\ length (dispatched r) = 1%nat.
Proof.
  apply (process_drops_falsy_rejection Double.env Double.ctx
           (Double.table "ORDERS_CREATE" Double.silent)
           (Double.delivery Double.goodDigest) Double.blank "{}" Double.goodDigest
           "orders/create" "shop.example.com" (Double.ordersEntry Double.silent)
           JS.VUndefined).
  - apply delivery_complete. discriminate.
  - reflexivity.
  - reflexivity.
  - reflexivity.
  - reflexivity.
Defined.

Lemma lower_upper_char (c : ascii) : JS.lower_char (JS.upper_char c) = JS.lower_char c.
Proof. destruct c as [[] [] [] [] [] [] [] []]; reflexivity. Qed.

Lemma toLowerCase_toUpperCase s : JS.toLowerCase (JS.toUpperCase s) = JS.toLowerCase s.
Proof.
  unfold JS.toLowerCase, JS.toUpperCase.
  induction s as [|c r IH]; [reflexivity|].
  simpl. rewrite lower_upper_char, IH. reflexivity.
Qed.

(** X18 for header names written in upper case. *)
Lemma process_header_names_ignore_case_witness :
  let reg := Double.table "ORDERS_CREATE" Double.quiet in
  process Double.env Double.ctx reg Double.shouting Double.blank
  = process Double.env Double.ctx reg (Double.delivery Double.goodDigest) Double.blank
  /\ Response.statusCode
       (response (process Double.env Double.ctx reg Double.shouting Double.blank))
     = Some 200%Z.
Proof.
  cbv zeta. split; [|reflexivity].
  apply (process_header_names_ignore_case Double.env Double.ctx
           (Double.table "ORDERS_CREATE" Double.quiet)
           (Double.delivery Double.goodDigest) Double.shouting Double.blank
           JS.toUpperCase).
  - exact toLowerCase_toUpperCase.
  - reflexivity.
  - reflexivity.
Defined.

(** X19 for a User-Agent header between the required ones. *)
Lemma process_ignores_other_headers_witness :
  let reg := Double.table "ORDERS_CREATE" Double.quiet in
  process Double.env Double.ctx reg Double.withAgent Double.blank
  = process Double.env Double.ctx reg (Double.delivery Double.goodDigest) Double.blank.
Proof.
  cbv zeta.
  apply (process_ignores_other_headers Double.env Double.ctx
           (Double.table "ORDERS_CREATE" Double.quiet)
           (Double.delivery Double.goodDigest) Double.withAgent Double.blank
           [("X-Shopify-Hmac-Sha256", Double.goodDigest)]
           [("X-Shopify-Topic", "orders/create");
            ("X-Shopify-Shop-Domain", "shop.example.com")]
           "User-Agent" "Shopify-Captain-Hook");
    try discriminate; reflexivity.
Defined.

(** X20 for a topic header that is overridden by a later one. *)
Lemma process_uses_last_header_value_witness :
  let reg := Double.table "ORDERS_CREATE" Double.quiet in
  process Double.env Double.ctx reg Double.repeated Double.blank
  = process Double.env Double.ctx reg (Double.delivery Double.goodDigest) Double.blank.
Proof.
  cbv zeta.
  apply (process_uses_last_header_value Double.env Double.ctx
           (Double.table "ORDERS_CREATE" Double.quiet) Double.repeated
           (Double.delivery Double.goodDigest) Double.blank double_names_distinct).
  - reflexivity.
  - intros name Hin.
    apply elem_of_cons in Hin as [->|Hin]; [reflexivity|].
    apply elem_of_cons in Hin as [->|Hin]; [reflexivity|].
    apply elem_of_cons in Hin as [->|Hin]; [reflexivity|].
    inversion Hin.
Defined.


Section RegisterSkip.

Context {Remote : Type} (send : Transport Remote) (ctx : Context).


End RegisterSkip.


